(** * The autotuning model dataset op and the cache writer, verified

    A shallow embedding of
    - [tensorflow/core/kernels/data/model_dataset_op.cc]: the [ModelDataset]
      kernel, its iterator, the optimisation thread and the metrics thread;
    - [tensorflow/core/kernels/data/experimental/easl_service/service_cache_util.cc]:
      the cache [Writer].

    Conventions.
    - [int64] values are integers of [Z]; every arithmetic operation of the
      source on them is followed by [Int64.wrap] (two's complement).
    - [double] values are the binary64 numbers of [PrimFloat].
    - Calls into collaborators whose code is elsewhere ([model::Model], the
      condition variable, the input iterator, the thread pool) are recorded
      as a list of [call]s, in program order.
    - Each thread is a step function over its local variables and a program
      point; one step runs from one release of [mu_] (or one blocking call)
      to the next, so steps of different threads interleave exactly where the
      source lets them. *)

From stdpp Require Import base strings gmap.
From stdpp Require Import pretty.
From Stdlib Require Import ZArith List Lia Bool Floats.
Import ListNotations.

Local Open Scope Z_scope.

(** ** Outcomes of a run

    A run either returns, or the process stops: on a failed [DCHECK] of a
    debug build, or on a division whose divisor is zero. *)

Inductive stop : Type :=
| DCheckFailed
| DivisionByZero.

Inductive outcome (A : Type) : Type :=
| Returns (a : A)
| Stops (why : stop).

Arguments Returns {A} a.
Arguments Stops {A} why.

#[global] Instance outcome_ret : MRet outcome := fun A a => Returns a.

#[global] Instance outcome_bind : MBind outcome := fun A B k o =>
  match o with
  | Returns a => k a
  | Stops why => Stops why
  end.

(** ** Machine numbers *)

Module Int64.

Definition min : Z := - 2 ^ 63.
Definition max : Z := 2 ^ 63 - 1.

Definition in_range (z : Z) : bool := (min <=? z) && (z <=? max).

(** Two's complement reduction into [[min, max]]. *)
Definition wrap (z : Z) : Z := (z + 2 ^ 63) mod 2 ^ 64 - 2 ^ 63.

Definition add (a b : Z) : Z := wrap (a + b).
Definition sub (a b : Z) : Z := wrap (a - b).
(** [a << n] *)
Definition shl (a n : Z) : Z := wrap (Z.shiftl a n).

End Int64.

Module Double.

(** [static_cast<double>(z)] for an [int64] [z]: the nearest binary64
    number, ties to even. *)
Definition of_int64 (z : Z) : float :=
  SF2Prim (binary_normalize prec emax z 0 false).

(** [static_cast<int64>(x)]: truncation towards zero. The conversion of a
    value that does not fit (or of a NaN) is undefined in C++; the model
    returns what x86-64 returns there, [Int64.min]. *)
Definition to_int64 (x : float) : Z :=
  match Prim2SF x with
  | S754_zero _ => 0
  | S754_finite s m e =>
      let mag := if 0 <=? e then Z.pos m * 2 ^ e else Z.pos m / 2 ^ (- e) in
      let v := if s then - mag else mag in
      if Int64.in_range v then v else Int64.min
  | S754_infinity _ | S754_nan => Int64.min
  end.

Definition zero : float := PrimFloat.zero.

(** Whether [x] is [+0] or [-0]. *)
Definition is_zero (x : float) : bool :=
  match Prim2SF x with
  | S754_zero _ => true
  | _ => false
  end.

(** [a / b]. C++ leaves the division by zero undefined: the run stops
    there. *)
Definition div (a b : float) : outcome float :=
  if is_zero b then Stops DivisionByZero else Returns (PrimFloat.div a b).

End Double.

(** ** [Status] *)

Inductive Code : Type :=
| INVALID_ARGUMENT
| NOT_FOUND
| OTHER_CODE (n : Z).

(** The pieces handed to [errors::InvalidArgument], in order. *)
Inductive piece : Type :=
| Str (s : string)
| Num (z : Z).

Inductive Status : Type :=
| OK
| Error (code : Code) (msg : list piece).

(** ** Constants *)

(** Modelled from the spec: [EnvTime::kSecondsToMillis] is declared in
    [env_time.h], outside the sources at hand; the spec gives the ceiling of
    the optimisation period as 60,000ms, that is [60 * 1000]. *)
Definition kSecondsToMillis : Z := 1000.

(** Modelled from the spec: [EnvTime::kMillisToMicros] is declared in
    [env_time.h], outside the sources at hand; it converts the microseconds of
    [NowMicros] to the milliseconds in which the spec states the periods. *)
Definition kMillisToMicros : Z := 1000.

Definition kOptimizationPeriodThresholdMs : Z := 60 * kSecondsToMillis.

(** Default share of available RAM that can be used by model's internal
    buffers. *)
Definition kRamBudgetShare : float := 0.5%float.

Definition kAlgorithm : string := "algorithm".
Definition kCpuBudget : string := "cpu_budget".
Definition kRamBudget : string := "ram_budget".

(** ** Data *)

(** [model::AutotuneAlgorithm], an enumeration built from an [int64] by
    [model::AutotuneAlgorithm(algorithm)]. *)
Inductive AutotuneAlgorithm : Type :=
| AutotuneAlgorithm_of (value : Z).

(** Modelled from the spec: the enumerators are declared in [model.h],
    outside the sources at hand; the spec lists hill-climb first, as the
    default. *)
Definition HILL_CLIMB : AutotuneAlgorithm := AutotuneAlgorithm_of 0.

(** What the platform reports: [port::NumSchedulableCPUs()] and
    [port::AvailableRam()]. *)
Record Port : Type := {
  NumSchedulableCPUs : Z;
  AvailableRam : Z
}.

(** [ModelDatasetOp::Dataset], its fields that the iterator reads. *)
Record Dataset : Type := {
  algorithm_ : AutotuneAlgorithm;
  dataset_cpu_budget_ : Z;
  dataset_ram_budget_ : Z
}.

(** A started [Thread], known by the name it was started under. *)
Record Thread : Type := { thread_name : string }.

(** [ModelDatasetOp::Dataset::Iterator], the members guarded by [mu_] and the
    two constant budgets. *)
Record Iterator : Type := {
  dataset : Dataset;
  model_thread_ : option Thread;
  metrics_thread_ : option Thread;
  cancelled_ : bool;
  num_input_events_ : Z;
  input_time_ : Z;
  last_output_time_ : Z;
  cpu_budget_ : Z;
  ram_budget_ : Z
}.

(** Calls into collaborators, as the log of a run records them. *)
Inductive call : Type :=
| StartThread (name : string)
| InputGetNext
| NotifyAll
| WaitFor (ms : Z)
| Optimize (algorithm : AutotuneAlgorithm) (cpu_budget ram_budget : Z)
           (model_input_time : float)
| FlushMetrics
| PrintMetrics
| CollectMetrics.

Definition is_Optimize (c : call) : bool :=
  match c with Optimize _ _ _ _ => true | _ => false end.

Definition is_StartThread (name : string) (c : call) : bool :=
  match c with StartThread n => bool_decide (n = name) | _ => false end.

(** Member updates. *)

Definition set_threads (m x : option Thread) (it : Iterator) : Iterator := {|
  dataset := dataset it;
  model_thread_ := m;
  metrics_thread_ := x;
  cancelled_ := cancelled_ it;
  num_input_events_ := num_input_events_ it;
  input_time_ := input_time_ it;
  last_output_time_ := last_output_time_ it;
  cpu_budget_ := cpu_budget_ it;
  ram_budget_ := ram_budget_ it
|}.

Definition set_cancelled_ (b : bool) (it : Iterator) : Iterator := {|
  dataset := dataset it;
  model_thread_ := model_thread_ it;
  metrics_thread_ := metrics_thread_ it;
  cancelled_ := b;
  num_input_events_ := num_input_events_ it;
  input_time_ := input_time_ it;
  last_output_time_ := last_output_time_ it;
  cpu_budget_ := cpu_budget_ it;
  ram_budget_ := ram_budget_ it
|}.

Definition set_input (events time : Z) (it : Iterator) : Iterator := {|
  dataset := dataset it;
  model_thread_ := model_thread_ it;
  metrics_thread_ := metrics_thread_ it;
  cancelled_ := cancelled_ it;
  num_input_events_ := events;
  input_time_ := time;
  last_output_time_ := last_output_time_ it;
  cpu_budget_ := cpu_budget_ it;
  ram_budget_ := ram_budget_ it
|}.

Definition set_last_output_time_ (t : Z) (it : Iterator) : Iterator := {|
  dataset := dataset it;
  model_thread_ := model_thread_ it;
  metrics_thread_ := metrics_thread_ it;
  cancelled_ := cancelled_ it;
  num_input_events_ := num_input_events_ it;
  input_time_ := input_time_ it;
  last_output_time_ := t;
  cpu_budget_ := cpu_budget_ it;
  ram_budget_ := ram_budget_ it
|}.

(** ** The iterator *)

(** [Iterator::Iterator]. The two branches of the conditional expression
    that initialises [ram_budget_] are a [double] and an [int64]: C++ brings
    them to their common type, [double], and the initialisation converts the
    result back to [int64]. The branches for [cpu_budget_] are an [int] and
    an [int64], with common type [int64]. *)
Definition Iterator_new (port : Port) (d : Dataset) : Iterator := {|
  dataset := d;
  model_thread_ := None;
  metrics_thread_ := None;
  cancelled_ := false;
  num_input_events_ := 0;
  input_time_ := 0;
  last_output_time_ := 0;
  cpu_budget_ :=
    if dataset_cpu_budget_ d =? 0 then NumSchedulableCPUs port
    else dataset_cpu_budget_ d;
  ram_budget_ :=
    Double.to_int64
      (if dataset_ram_budget_ d =? 0
       then PrimFloat.mul kRamBudgetShare (Double.of_int64 (AvailableRam port))
       else Double.of_int64 (dataset_ram_budget_ d))
|}.

(** [Iterator::~Iterator] *)
Definition Iterator_delete (it : Iterator) : Iterator * list call :=
  (set_cancelled_ true it, [NotifyAll]).

(** [Iterator::RecordInput]. [debug] says whether [DCHECK_LE] is compiled
    in; otherwise it expands to nothing. *)
Definition RecordInput (debug : bool) (time_nanos : Z) (it : Iterator)
  : outcome Iterator :=
  if negb (last_output_time_ it =? 0) then
    if debug && negb (last_output_time_ it <=? time_nanos) then
      Stops DCheckFailed
    else
      Returns
        (set_input
           (Int64.add (num_input_events_ it) 1)
           (Int64.add (input_time_ it)
                      (Int64.sub time_nanos (last_output_time_ it)))
           it)
  else Returns it.

(** [Iterator::RecordOutput] *)
Definition RecordOutput (time_nanos : Z) (it : Iterator) : Iterator :=
  set_last_output_time_ time_nanos it.

(** [Iterator::SelfInputTime] *)
Definition SelfInputTime (it : Iterator) : outcome float :=
  if num_input_events_ it =? 0 then Returns Double.zero
  else Double.div (Double.of_int64 (input_time_ it))
                  (Double.of_int64 (num_input_events_ it)).

Definition tf_data_model : string := "tf_data_model".
Definition tf_data_metrics : string := "tf_data_metrics".

(** [ctx->StartThread(name, fn)]: the thread is started, which the log
    records, and its handle returned. *)
Definition ctx_StartThread (name : string) : Thread * list call :=
  ({| thread_name := name |}, [StartThread name]).

(** [Iterator::EnsureModelThreadStarted] *)
Definition EnsureModelThreadStarted (it : Iterator)
  : Status * Iterator * list call :=
  (* Start the optimization thread if necessary *)
  let '(model_thread, log1) :=
    match model_thread_ it with
    | None =>
        let '(t, log) := ctx_StartThread tf_data_model in (Some t, log)
    | Some t => (Some t, [])
    end in
  (* Start the metrics thread if necessary *)
  let '(metrics_thread, log2) :=
    match metrics_thread_ it with
    | None =>
        let '(t, log) := ctx_StartThread tf_data_metrics in (Some t, log)
    | Some t => (Some t, [])
    end in
  (OK, set_threads model_thread metrics_thread it, log1 ++ log2).

(** [Iterator::GetNextInternal]. [now_nanos1] and [now_nanos2] are the values
    of the two locals [now_nanos], and [s] the status that
    [input_impl_->GetNext] returns. *)
Definition GetNextInternal (debug : bool) (now_nanos1 now_nanos2 : Z)
    (s : Status) (it : Iterator) : outcome (Status * Iterator * list call) :=
  let '(started, it, log) := EnsureModelThreadStarted it in
  match started with
  | Error code msg => Returns (Error code msg, it, log)
  | OK =>
      it ← RecordInput debug now_nanos1 it;
      let it := RecordOutput now_nanos2 it in
      Returns (s, it, log ++ [InputGetNext])
  end.

(** A sequence of element requests; each is the pair
    [(input_ts, output_ts)] of its two clock readings together with the
    status of the input.  The run returns the iterator and the whole log. *)
Fixpoint GetNext_run (debug : bool) (reqs : list (Z * Z * Status))
    (it : Iterator) : outcome (Iterator * list call) :=
  match reqs with
  | [] => Returns (it, [])
  | (input_ts, output_ts, s) :: reqs =>
      r ← GetNextInternal debug input_ts output_ts s it;
      let '(_, it, log) := r in
      r' ← GetNext_run debug reqs it;
      let '(it, log') := r' in
      Returns (it, log ++ log')
  end.

(** ** The optimisation thread *)

(** Program points of [ModelThread]: at the test of the inner [while]
    (holding [mu_]); blocked in [cond_var_.wait_for]; before the block that
    reads [SelfInputTime]; before the call of [Optimize]; returned. *)
Inductive model_pc : Type :=
| MT_Test
| MT_Waiting
| MT_SelfInput
| MT_Optimize
| MT_Returned.

(** The locals of [ModelThread]. [model_input_time] is declared without an
    initial value. *)
Record ModelThread : Type := {
  mt_pc : model_pc;
  last_optimization_ms : Z;
  optimization_period_ms : Z;
  mt_current_time_ms : Z;
  model_input_time : option float
}.

(** [EnvTime::NowMicros() / EnvTime::kMillisToMicros], assigned to an
    [int64]. *)
Definition now_ms (now_micros : Z) : Z :=
  Int64.wrap (now_micros / kMillisToMicros).

(** Entry of [ModelThread], up to the first test of the loop. *)
Definition ModelThread_start (now_micros : Z) : ModelThread := {|
  mt_pc := MT_Test;
  last_optimization_ms := 0;
  optimization_period_ms := 10;
  mt_current_time_ms := now_ms now_micros;
  model_input_time := None
|}.

(** One step of [ModelThread]. [it] is the iterator as the thread finds it
    when the step runs, [now_micros] the reading of the clock that the step
    stores (the readings that only feed [VLOG] are left out). *)
Definition ModelThread_step (it : Iterator) (now_micros : Z) (th : ModelThread)
  : outcome (ModelThread * list call) :=
  match mt_pc th with
  | MT_Test =>
      if negb (cancelled_ it) &&
         (mt_current_time_ms th <?
            Int64.add (last_optimization_ms th) (optimization_period_ms th))
      then
        let wait_ms :=
          Int64.sub
            (Int64.add (last_optimization_ms th) (optimization_period_ms th))
            (mt_current_time_ms th) in
        Returns
          ({| mt_pc := MT_Waiting;
              last_optimization_ms := last_optimization_ms th;
              optimization_period_ms := optimization_period_ms th;
              mt_current_time_ms := mt_current_time_ms th;
              model_input_time := model_input_time th |},
           [WaitFor wait_ms])
      else if cancelled_ it then
        Returns
          ({| mt_pc := MT_Returned;
              last_optimization_ms := last_optimization_ms th;
              optimization_period_ms := optimization_period_ms th;
              mt_current_time_ms := mt_current_time_ms th;
              model_input_time := model_input_time th |},
           [])
      else
        Returns
          ({| mt_pc := MT_SelfInput;
              last_optimization_ms := last_optimization_ms th;
              optimization_period_ms := optimization_period_ms th;
              mt_current_time_ms := mt_current_time_ms th;
              model_input_time := None |},
           [])
  | MT_Waiting =>
      Returns
        ({| mt_pc := MT_Test;
            last_optimization_ms := last_optimization_ms th;
            optimization_period_ms := optimization_period_ms th;
            mt_current_time_ms := now_ms now_micros;
            model_input_time := model_input_time th |},
         [])
  | MT_SelfInput =>
      t ← SelfInputTime it;
      Returns
        ({| mt_pc := MT_Optimize;
            last_optimization_ms := last_optimization_ms th;
            optimization_period_ms := optimization_period_ms th;
            mt_current_time_ms := mt_current_time_ms th;
            model_input_time := Some t |},
         [])
  | MT_Optimize =>
      let optimize :=
        Optimize (algorithm_ (dataset it)) (cpu_budget_ it) (ram_budget_ it)
                 (* model_input_time= *) Double.zero in
      (* Exponentially increase the period of running the optimization
         until a threshold is reached. *)
      let period :=
        if negb (optimization_period_ms th =? kOptimizationPeriodThresholdMs)
        then Z.min (Int64.shl (optimization_period_ms th) 1)
                   kOptimizationPeriodThresholdMs
        else optimization_period_ms th in
      let current_time_ms := now_ms now_micros in
      Returns
        ({| mt_pc := MT_Test;
            last_optimization_ms := current_time_ms;
            optimization_period_ms := period;
            mt_current_time_ms := current_time_ms;
            model_input_time := model_input_time th |},
         [optimize; FlushMetrics])
  | MT_Returned => Returns (th, [])
  end.

(** A run of the thread: one step for each entry of [env], which gives the
    iterator found and the clock read at that step. *)
Fixpoint ModelThread_run (env : list (Iterator * Z)) (th : ModelThread)
  : outcome (ModelThread * list call) :=
  match env with
  | [] => Returns (th, [])
  | (it, now_micros) :: env =>
      r ← ModelThread_step it now_micros th;
      let '(th, log) := r in
      r' ← ModelThread_run env th;
      let '(th, log') := r' in
      Returns (th, log ++ log')
  end.

(** ** The metrics thread *)

(** The resources of [ctx->resource_mgr()]: the counter of each
    [MyResource], by container and name. [MyResource] is declared outside
    the sources at hand, so the width of its counter is not known; it is an
    integer here. *)
Abbreviation ResourceMgr := (gmap (string * string) Z).

(** Program points of [MetricsThread]: at the test of the inner [while]
    (holding [mu_]); blocked in [cond_var_.wait_for]; after the lock is
    released, before [if (cancelled_)]; returned. *)
Inductive metrics_pc : Type :=
| XT_Test
| XT_Waiting
| XT_Cancelled
| XT_Returned.

Record MetricsThread : Type := {
  xt_pc : metrics_pc;
  last_recording_time_ms : Z;
  recording_period_ms : Z;
  xt_current_time_ms : Z
}.

Definition MetricsThread_start (now_micros : Z) : MetricsThread := {|
  xt_pc := XT_Test;
  last_recording_time_ms := 0;
  recording_period_ms := 10;
  xt_current_time_ms := now_ms now_micros
|}.

(** The block "Test the ResourceMgr". *)
Definition test_ResourceMgr (rm : ResourceMgr) : ResourceMgr :=
  match rm !! ("my_container"%string, "my_resource"%string) with
  | None => <[("my_container"%string, "my_resource"%string) := 0]> rm
  | Some counter =>
      <[("my_container"%string, "my_resource"%string) := counter + 1]> rm
  end.

(** One step of [MetricsThread]. *)
Definition MetricsThread_step (it : Iterator) (now_micros : Z)
    (th : MetricsThread) (rm : ResourceMgr)
  : MetricsThread * ResourceMgr * list call :=
  match xt_pc th with
  | XT_Test =>
      if negb (cancelled_ it) &&
         (xt_current_time_ms th <?
            Int64.add (last_recording_time_ms th) (recording_period_ms th))
      then
        let wait_period_ms :=
          Int64.sub
            (Int64.add (last_recording_time_ms th) (recording_period_ms th))
            (xt_current_time_ms th) in
        ({| xt_pc := XT_Waiting;
            last_recording_time_ms := last_recording_time_ms th;
            recording_period_ms := recording_period_ms th;
            xt_current_time_ms := xt_current_time_ms th |},
         rm, [WaitFor wait_period_ms])
      else
        ({| xt_pc := XT_Cancelled;
            last_recording_time_ms := last_recording_time_ms th;
            recording_period_ms := recording_period_ms th;
            xt_current_time_ms := xt_current_time_ms th |},
         rm, [])
  | XT_Waiting =>
      ({| xt_pc := XT_Test;
          last_recording_time_ms := last_recording_time_ms th;
          recording_period_ms := recording_period_ms th;
          xt_current_time_ms := now_ms now_micros |},
       rm, [])
  | XT_Cancelled =>
      (* If this thread has been terminated, we return *)
      if cancelled_ it then
        ({| xt_pc := XT_Returned;
            last_recording_time_ms := last_recording_time_ms th;
            recording_period_ms := recording_period_ms th;
            xt_current_time_ms := xt_current_time_ms th |},
         rm, [])
      else
        (* Otherwise flush the metrics, and record the current time *)
        ({| xt_pc := XT_Test;
            last_recording_time_ms := now_ms now_micros;
            recording_period_ms := recording_period_ms th;
            xt_current_time_ms := now_ms now_micros |},
         test_ResourceMgr rm,
         [FlushMetrics; PrintMetrics; CollectMetrics])
  | XT_Returned => (th, rm, [])
  end.

Fixpoint MetricsThread_run (env : list (Iterator * Z)) (th : MetricsThread)
    (rm : ResourceMgr) : MetricsThread * ResourceMgr * list call :=
  match env with
  | [] => (th, rm, [])
  | (it, now_micros) :: env =>
      let '(th, rm, log) := MetricsThread_step it now_micros th rm in
      let '(th, rm, log') := MetricsThread_run env th rm in
      (th, rm, log ++ log')
  end.

(** ** The kernel *)

(** A value, or the error status that ends the construction. *)
Inductive StatusOr (A : Type) : Type :=
| Value (a : A)
| Failure (code : Code) (msg : list piece).

Arguments Value {A} a.
Arguments Failure {A} code msg.

#[global] Instance StatusOr_ret : MRet StatusOr := fun A a => Value a.

#[global] Instance StatusOr_bind : MBind StatusOr := fun A B k o =>
  match o with
  | Value a => k a
  | Failure code msg => Failure code msg
  end.

(** [OpKernelConstruction], as far as the constructor uses it: whether an
    attribute is there, and its value as an [int64] (or the status with which
    [GetAttr] fails). Both are implemented outside the sources at hand. *)
Record OpKernelConstruction : Type := {
  HasAttr : string -> bool;
  GetAttr : string -> StatusOr Z
}.

(** [OP_REQUIRES(ctx, cond, status)]: unless [cond], the construction ends
    with [status]. *)
Definition OP_REQUIRES (cond : bool) (code : Code) (msg : list piece)
  : StatusOr unit :=
  if cond then Value tt else Failure code msg.

(** The members of [ModelDatasetOp]. *)
Record ModelDatasetOp : Type := {
  op_algorithm_ : AutotuneAlgorithm;
  op_cpu_budget_ : Z;
  op_ram_budget_ : Z
}.

(** [ModelDatasetOp::ModelDatasetOp]; [OP_REQUIRES_OK] is the bind. *)
Definition ModelDatasetOp_new (ctx : OpKernelConstruction)
  : StatusOr ModelDatasetOp :=
  algorithm ←
    (if HasAttr ctx kAlgorithm then
       algorithm ← GetAttr ctx kAlgorithm;
       Value (AutotuneAlgorithm_of algorithm)
     else Value HILL_CLIMB);
  cpu_budget ← GetAttr ctx kCpuBudget;
  _ ← OP_REQUIRES (0 <=? cpu_budget) INVALID_ARGUMENT
        [Str "CPU budget must be positive but is "; Num cpu_budget; Str "."];
  ram_budget ←
    (if HasAttr ctx kRamBudget then GetAttr ctx kRamBudget else Value 0);
  _ ← OP_REQUIRES (0 <=? ram_budget) INVALID_ARGUMENT
        [Str "RAM budget must be positive but is "; Num ram_budget; Str "."];
  Value {| op_algorithm_ := algorithm;
           op_cpu_budget_ := cpu_budget;
           op_ram_budget_ := ram_budget |}.

(** [ModelDatasetOp::MakeDataset] *)
Definition MakeDataset (op : ModelDatasetOp) : Dataset := {|
  algorithm_ := op_algorithm_ op;
  dataset_cpu_budget_ := op_cpu_budget_ op;
  dataset_ram_budget_ := op_ram_budget_ op
|}.

(** Modelled from the spec: the framework that creates the kernel and then
    asks it for the dataset is outside the sources at hand; by the spec a
    rejected configuration is fatal to the construction and surfaced to the
    caller, so [MakeDataset] runs only on a kernel whose construction ended
    without an error. *)
Definition CreateDataset (ctx : OpKernelConstruction) : StatusOr Dataset :=
  op ← ModelDatasetOp_new ctx;
  Value (MakeDataset op).

(** ** The cache writer *)

(** The arguments with which [Writer::Writer] makes its
    [snapshot_util::AsyncWriter]. *)
Inductive compression : Type := kSnappy.

Record AsyncWriterArgs : Type := {
  file_index : Z;
  shard_directory : string;
  checkpoint_id : Z;
  compression_type : compression;
  version : Z
}.

(** [snapshot_util::AsyncWriter], implemented outside the sources at hand:
    any type with these operations. None of them returns a status; the
    writer reports its final status by calling [done]. *)
Class AsyncWriterOps (Tensor AsyncWriter : Type) : Type := {
  AsyncWriter_new : AsyncWriterArgs -> AsyncWriter;
  AsyncWriter_Write : list Tensor -> AsyncWriter -> AsyncWriter;
  AsyncWriter_SignalEOF : AsyncWriter -> AsyncWriter
}.

Section Writer.

Context {Tensor AsyncWriter : Type} `{!AsyncWriterOps Tensor AsyncWriter}.

Record Writer : Type := {
  target_dir_ : string;
  async_writer_ : AsyncWriter
}.

(** [Writer::Writer] *)
Definition Writer_new (target_dir : string) : Writer := {|
  target_dir_ := target_dir;
  async_writer_ :=
    AsyncWriter_new {| file_index := 0;
                       shard_directory := target_dir;
                       checkpoint_id := 0;
                       compression_type := kSnappy;
                       version := 2 |}
|}.

(** The [done] callback that the constructor hands to the
    [AsyncWriter]: [[this](Status s){ return; }]. *)
Definition Writer_done (s : Status) (w : Writer) : Writer := w.

(** [Writer::Write] *)
Definition Writer_Write (tensors : list Tensor) (w : Writer)
  : Status * Writer :=
  (OK, {| target_dir_ := target_dir_ w;
          async_writer_ := AsyncWriter_Write tensors (async_writer_ w) |}).

(** [Writer::~Writer]: what is left of the [AsyncWriter] when it is reset. *)
Definition Writer_delete (w : Writer) : AsyncWriter :=
  AsyncWriter_SignalEOF (async_writer_ w).

(** What happens to a writer between its construction and its end: the
    caller writes, or the [AsyncWriter] calls [done] with its status. *)
Inductive writer_op : Type :=
| DoWrite (tensors : list Tensor)
| CallDone (s : Status).

(** The statuses that the caller gets back over a sequence of
    operations, in order. *)
Fixpoint Writer_run (ops : list writer_op) (w : Writer)
  : list Status * Writer :=
  match ops with
  | [] => ([], w)
  | DoWrite tensors :: ops =>
      let '(s, w) := Writer_Write tensors w in
      let '(ss, w) := Writer_run ops w in
      (s :: ss, w)
  | CallDone s :: ops => Writer_run ops (Writer_done s w)
  end.

End Writer.

(** ** Specification predicates *)

(** What a debug build asserts over a sequence of element requests: each
    input timestamp is no earlier than the output timestamp recorded just
    before it, unless that one is 0 (nothing recorded yet). *)
Fixpoint inputs_follow_outputs (last_output : Z) (reqs : list (Z * Z * Status))
  : bool :=
  match reqs with
  | [] => true
  | (input_ts, output_ts, _) :: reqs =>
      ((last_output =? 0) || (last_output <=? input_ts))
      && inputs_follow_outputs output_ts reqs
  end.

(** The ordering that the claim speaks of: each output timestamp is no
    earlier than the input timestamp of its own pair. *)
Definition outputs_follow_inputs (reqs : list (Z * Z * Status)) : Prop :=
  Forall (fun r => r.1.1 <= r.1.2) reqs.

(** Sample platform, dataset and iterator for the closed examples. *)
Definition sample_port : Port :=
  {| NumSchedulableCPUs := 8; AvailableRam := 2 ^ 34 |}.

Definition sample_dataset : Dataset :=
  {| algorithm_ := HILL_CLIMB; dataset_cpu_budget_ := 0;
     dataset_ram_budget_ := 0 |}.

Definition sample_iterator : Iterator := Iterator_new sample_port sample_dataset.

(** An iterator that has accumulated 10ns of input time over 2 events. *)
Definition busy_iterator : Iterator := set_input 2 10 sample_iterator.

(** A thread about to read the self input time. *)
Definition thread_before_pass : ModelThread := {|
  mt_pc := MT_SelfInput;
  last_optimization_ms := 0;
  optimization_period_ms := 10;
  mt_current_time_ms := 1000;
  model_input_time := None
|}.

(** How many calls of a log satisfy [p]. *)
Fixpoint count_calls (p : call -> bool) (log : list call) : nat :=
  match log with
  | [] => 0%nat
  | c :: log => ((if p c then 1 else 0) + count_calls p log)%nat
  end.

(** The period in force once [n] passes have run. *)
Definition period_after (n : nat) : Z :=
  Z.min (10 * 2 ^ Z.of_nat n) kOptimizationPeriodThresholdMs.

(** The invariant of the thread after [n] passes: the period, and, from the
    end of the wait to the call of [Optimize], that the period has elapsed
    since the last pass on the thread's reading of the clock. *)
Definition ModelThread_inv (n : nat) (th : ModelThread) : Prop :=
  optimization_period_ms th = period_after n /\
  (mt_pc th = MT_SelfInput \/ mt_pc th = MT_Optimize ->
   Int64.add (last_optimization_ms th) (optimization_period_ms th)
   <= mt_current_time_ms th).

(** How often a thread is started over a sequence of requests: once if it
    does not exist and there is a request, otherwise not at all. *)
Definition starts (existing : option Thread) (reqs : list (Z * Z * Status))
  : nat :=
  match existing, reqs with
  | None, _ :: _ => 1%nat
  | _, _ => 0%nat
  end.

(** A sequence of [RecordInput] calls, with no [RecordOutput] between
    them. *)
Fixpoint RecordInput_run (debug : bool) (times : list Z) (it : Iterator)
  : outcome Iterator :=
  match times with
  | [] => Returns it
  | time_nanos :: times =>
      it ← RecordInput debug time_nanos it;
      RecordInput_run debug times it
  end.

(** A construction context over a map of [int64] attributes. *)
Definition ctx_of_attrs (attrs : gmap string Z) : OpKernelConstruction := {|
  HasAttr name := bool_decide (is_Some (attrs !! name));
  GetAttr name :=
    match attrs !! name with
    | Some z => Value z
    | None => Failure NOT_FOUND [Str "No attr named "; Str name]
    end
|}.

(** An asynchronous writer that fails on every write: its state is the
    status it has reached. *)
#[local] Instance failing_writer : AsyncWriterOps Z Status := {|
  AsyncWriter_new _ := OK;
  AsyncWriter_Write _ _ := Error (OTHER_CODE 14) [Str "unavailable"];
  AsyncWriter_SignalEOF st := st
|}.

(** A clock (in microseconds) for the closed runs of the threads: the
    iterator is never cancelled. *)
Definition sample_env : list (Iterator * Z) :=
  map (fun now_micros => (sample_iterator, now_micros))
      [5000000; 5000000; 5000000; 5000000; 5010000; 5020000; 5020000;
       5020000; 5030000].

(** The last part of [binary_round_aux], after the rounding. *)
Definition finish (s : bool) (q e : Z) : spec_float :=
  let '(mrs, e') := shr_fexp prec emax q e loc_Exact in
  match shr_m mrs with
  | 0 => S754_zero s
  | Z.pos m => if e' <=? emax - prec then S754_finite s m e' else S754_infinity s
  | Z.neg _ => S754_nan
  end.

Definition finite_or_infinite (s : bool) (x : spec_float) : Prop :=
  (exists m e, x = S754_finite s m e) \/ x = S754_infinity s.

(** ** Serialisation of the dataset *)

(** A call to the [DatasetGraphDefBuilder]: [AddInputDataset], or
    [AddDataset] with the number of input nodes and the attributes handed
    over, each an [int64] put in an [AttrValue] by [BuildAttrValue]. *)
Inductive builder_call : Type :=
| AddInputDataset
| AddDataset (inputs : nat) (attrs : list (string * Z)).

(** What the builder, implemented elsewhere, answers to the three calls
    that [AsGraphDefInternal] can make: a node, or an error status. *)
Record builder_replies (Node : Type) : Type := {
  reply_AddInputDataset : StatusOr Node;
  reply_AddDataset : StatusOr Node;
  reply_AddDataset_attrs : StatusOr Node
}.

Arguments reply_AddInputDataset {Node} _.
Arguments reply_AddDataset {Node} _.
Arguments reply_AddDataset_attrs {Node} _.

(** [static_cast<int64>(algorithm_)] *)
Definition AutotuneAlgorithm_value (a : AutotuneAlgorithm) : Z :=
  match a with AutotuneAlgorithm_of value => value end.

(** The attributes of the second [AddDataset]. *)
Definition graph_attrs (d : Dataset) : list (string * Z) :=
  [(kAlgorithm, AutotuneAlgorithm_value (algorithm_ d));
   (kCpuBudget, dataset_cpu_budget_ d);
   (kRamBudget, dataset_ram_budget_ d)].

(** [Dataset::AsGraphDefInternal]: the node stored in [*output] or the
    error, and the calls made to the builder; [TF_RETURN_IF_ERROR] is the
    match on a reply. *)
Definition AsGraphDefInternal {Node : Type} (b : builder_replies Node)
    (d : Dataset) : StatusOr Node * list builder_call :=
  match reply_AddInputDataset b with
  | Failure code msg => (Failure code msg, [AddInputDataset])
  | Value input_graph_node =>
      match reply_AddDataset b with
      | Failure code msg =>
          (Failure code msg, [AddInputDataset; AddDataset 1 []])
      | Value _ =>
          match reply_AddDataset_attrs b with
          | Failure code msg =>
              (Failure code msg,
               [AddInputDataset; AddDataset 1 [];
                AddDataset 1 (graph_attrs d)])
          | Value output =>
              (Value output,
               [AddInputDataset; AddDataset 1 [];
                AddDataset 1 (graph_attrs d)])
          end
      end
  end.

(** ** The trace metadata *)

(** [strings::Printf("%lld", static_cast<long long>(z))]: the decimal
    digits of [z], after a minus sign if it is negative. *)
Definition Printf_lld (z : Z) : string := pretty z.

(** [algorithm == model::AutotuneAlgorithm::HILL_CLIMB] *)
Definition is_HILL_CLIMB (a : AutotuneAlgorithm) : bool :=
  AutotuneAlgorithm_value a =? AutotuneAlgorithm_value HILL_CLIMB.

(** [traceme_metadata_], as the constructor of [Dataset] sets it. *)
Definition traceme_metadata_ (d : Dataset) : list (string * string) :=
  [("algorithm"%string,
    if is_HILL_CLIMB (algorithm_ d) then "hill climb"%string
    else "gradient descent"%string);
   ("cpu_budget"%string, Printf_lld (dataset_cpu_budget_ d));
   ("ram_budget"%string, Printf_lld (dataset_ram_budget_ d) +:+ "B")].


(** ** Further specification predicates *)

(** The gaps that a sequence of element requests accumulates in
    [input_time_]: for each request its input timestamp minus the output
    timestamp recorded before it, unless that one is 0. *)
Fixpoint input_gaps (last_output : Z) (reqs : list (Z * Z * Status))
  : list Z :=
  match reqs with
  | [] => []
  | (input_ts, output_ts, _) :: reqs =>
      (if last_output =? 0 then [] else [input_ts - last_output])
      ++ input_gaps output_ts reqs
  end.

Definition sum_Z (l : list Z) : Z := fold_right Z.add 0 l.

(** The output timestamp recorded last. *)
Fixpoint final_output (last_output : Z) (reqs : list (Z * Z * Status)) : Z :=
  match reqs with
  | [] => last_output
  | (_, output_ts, _) :: reqs => final_output output_ts reqs
  end.

(** The timestamps of the requests never go back, starting from [t], and
    fit an [int64]. *)
Fixpoint monotone_from (t : Z) (reqs : list (Z * Z * Status)) : bool :=
  match reqs with
  | [] => true
  | (input_ts, output_ts, _) :: reqs =>
      (t <=? input_ts) && (input_ts <=? output_ts)
      && (output_ts <=? Int64.max) && monotone_from output_ts reqs
  end.

(** The readings of the clock (a [uint64] of microseconds) that a thread
    makes never go back, starting from [t]. *)
Fixpoint clock_from (t : Z) (env : list (Iterator * Z)) : bool :=
  match env with
  | [] => true
  | (_, now_micros) :: env =>
      (t <=? now_micros) && (now_micros <? 2 ^ 64) && clock_from now_micros env
  end.

(** No step of the thread finds the iterator cancelled. *)
Definition never_cancelled (env : list (Iterator * Z)) : bool :=
  forallb (fun e => negb (cancelled_ e.1)) env.

(** The waits of a log. *)
Fixpoint waits (log : list call) : list Z :=
  match log with
  | [] => []
  | WaitFor ms :: log => ms :: waits log
  | _ :: log => waits log
  end.

(** The tensors of the writes of a sequence of operations, in order. *)
Fixpoint writes_of {Tensor : Type} (ops : list (writer_op (Tensor := Tensor)))
  : list (list Tensor) :=
  match ops with
  | [] => []
  | DoWrite tensors :: ops => tensors :: writes_of ops
  | CallDone _ :: ops => writes_of ops
  end.

(** An asynchronous writer that keeps what it is given: the elements
    written, latest first, and whether the end was signalled. *)
#[local] Instance recording_writer : AsyncWriterOps Z (list (list Z) * bool) := {|
  AsyncWriter_new _ := ([], false);
  AsyncWriter_Write tensors st := (tensors :: st.1, st.2);
  AsyncWriter_SignalEOF st := (st.1, true)
|}.

(** The times that the metrics thread holds, against the last reading [t]
    of the clock. *)
Definition MetricsThread_times (t : Z) (th : MetricsThread) : Prop :=
  0 <= t < 2 ^ 64 /\
  recording_period_ms th = 10 /\
  0 <= last_recording_time_ms th <= xt_current_time_ms th /\
  xt_current_time_ms th <= t / 1000.

(** The times that the optimisation thread holds, against the last reading
    [t] of the clock; its period lies between 10 and 60000. *)
Definition ModelThread_times (t : Z) (th : ModelThread) : Prop :=
  0 <= t < 2 ^ 64 /\
  10 <= optimization_period_ms th <= 60000 /\
  0 <= last_optimization_ms th <= mt_current_time_ms th /\
  mt_current_time_ms th <= t / 1000.

(** Kinds of calls. *)
Definition is_FlushMetrics (c : call) : bool :=
  match c with FlushMetrics => true | _ => false end.
Definition is_PrintMetrics (c : call) : bool :=
  match c with PrintMetrics => true | _ => false end.
Definition is_CollectMetrics (c : call) : bool :=
  match c with CollectMetrics => true | _ => false end.

(** What the optimisation thread may call, for an iterator with algorithm
    [a] and budgets [cpu] and [ram]. *)
Definition ModelThread_call (a : AutotuneAlgorithm) (cpu ram : Z) (c : call)
  : Prop :=
  match c with
  | WaitFor _ | FlushMetrics => True
  | Optimize a' cpu' ram' t =>
      a' = a /\ cpu' = cpu /\ ram' = ram /\ t = Double.zero
  | _ => False
  end.

(** The iterator that the thread finds has this configuration at every
    step. *)
Definition config_is (a : AutotuneAlgorithm) (cpu ram : Z)
    (env : list (Iterator * Z)) : Prop :=
  Forall (fun e => algorithm_ (dataset e.1) = a /\
                   cpu_budget_ e.1 = cpu /\ ram_budget_ e.1 = ram) env.

(** The resource that the metrics thread looks up. *)
Definition my_resource : string * string :=
  ("my_container"%string, "my_resource"%string).

(** The counter of the resource after [n] more flushes. *)
Definition counter_after (n : nat) (counter : option Z) : option Z :=
  match n, counter with
  | O, _ => counter
  | S m, None => Some (Z.of_nat m)
  | S m, Some c => Some (c + Z.of_nat (S m))
  end.

(** A configuration whose attributes can be read: [algorithm], if there, and
    [cpu_budget] with value [cpu], and [ram_budget] with value [ram], 0 if it
    is not there. *)
Definition readable (ctx : OpKernelConstruction) (cpu ram : Z) : Prop :=
  (HasAttr ctx kAlgorithm = true -> exists a, GetAttr ctx kAlgorithm = Value a) /\
  GetAttr ctx kCpuBudget = Value cpu /\
  (if HasAttr ctx kRamBudget then GetAttr ctx kRamBudget = Value ram
   else ram = 0).

(** The algorithm that the constructor takes from the context. *)
Definition algorithm_of (ctx : OpKernelConstruction) : AutotuneAlgorithm :=
  if HasAttr ctx kAlgorithm then
    match GetAttr ctx kAlgorithm with
    | Value a => AutotuneAlgorithm_of a
    | Failure _ _ => HILL_CLIMB
    end
  else HILL_CLIMB.

(** The attributes that [AsGraphDefInternal] hands to the builder, as a
    construction context. *)
Definition graph_ctx (d : Dataset) : OpKernelConstruction :=
  ctx_of_attrs (list_to_map (graph_attrs d)).

(** ** Consecutive wake-ups of the optimisation thread *)

(** A reading of the clock, a [uint64]. *)
Definition uint64 (z : Z) : bool := (0 <=? z) && (z <? 2 ^ 64).

(** The steps of the optimisation thread from the end of its [k]-th pass, at
    [last_ms], over further wake-ups with no cancellation and each wait
    running to its end. Each further pass takes five steps: the test that
    starts the wait, the wake-up with its reading of the clock, the test
    again, the read of the self input time, and the pass with the reading of
    the clock at its end. The wake-up comes once the [k]-th inter-wake
    period, [min (10 * 2^k) 60000] ms, has elapsed. *)
Fixpoint wakeups (k : nat) (last_ms : Z) (env : list (Iterator * Z)) : bool :=
  match env with
  | [] => true
  | (it1, _) :: (_, wake_micros) :: (it3, _) :: _ :: (_, end_micros) :: env =>
      negb (cancelled_ it1) && negb (cancelled_ it3)
      && uint64 wake_micros && uint64 end_micros
      && (last_ms + Z.min (10 * 2 ^ Z.of_nat k) 60000 <=? now_ms wake_micros)
      && wakeups (S k) (now_ms end_micros) env
  | _ => false
  end.

(** The calls of the thread over these steps: for each further pass, the
    wait for the inter-wake period, then [Optimize] and [FlushMetrics]. *)
Fixpoint wakeups_log (k : nat) (env : list (Iterator * Z)) : list call :=
  match env with
  | _ :: _ :: _ :: _ :: (it5, _) :: env =>
      WaitFor (Z.min (10 * 2 ^ Z.of_nat k) 60000)
      :: Optimize (algorithm_ (dataset it5)) (cpu_budget_ it5) (ram_budget_ it5)
                  Double.zero
      :: FlushMetrics
      :: wakeups_log (S k) env
  | _ => []
  end.

(** Steps for the first three passes of a thread started at 5000ms: the
    first pass ends at 5001ms, the thread is woken at 5021ms and at 5062ms. *)
Definition sample_wakeups : list (Iterator * Z) :=
  map (fun now_micros => (sample_iterator, now_micros))
      [5021000; 5021000; 5021000; 5021000; 5022000;
       5062000; 5062000; 5062000; 5062000; 5063000].

(** * Theorems *)

(** ** The model at work *)

(** Three element requests, the inputs 10ns and 5ns after the previous
    outputs: both threads are started at the first request only, and the self
    input time is 7.5ns. *)
Example GetNext_three_requests :
  GetNext_run true [(100, 150, OK); (160, 170, OK); (175, 180, OK)]
              sample_iterator
  = Returns
      (set_last_output_time_ 180
         (set_input 2 15
            (set_threads (Some {| thread_name := tf_data_model |})
                         (Some {| thread_name := tf_data_metrics |})
                         sample_iterator)),
       [StartThread tf_data_model; StartThread tf_data_metrics;
        InputGetNext; InputGetNext; InputGetNext])
  /\ SelfInputTime (set_input 2 15 sample_iterator) = Returns 7.5%float.
Proof. split; vm_compute; reflexivity. Qed.

(** With an input 5ns before the previous output, the debug build stops and
    the release build goes on. *)
Example GetNext_input_before_output :
  GetNext_run true [(100, 150, OK); (145, 170, OK)] sample_iterator
  = Stops DCheckFailed /\
  exists r, GetNext_run false [(100, 150, OK); (145, 170, OK)] sample_iterator
            = Returns r.
Proof. split; [|eexists]; vm_compute; reflexivity. Qed.

(** The optimisation thread, started at 5000ms: it optimises at once, then
    waits for the 20ms of its doubled period. *)
Example ModelThread_first_pass :
  (r ← ModelThread_run sample_env (ModelThread_start 5000000); Returns r.2)
  = Returns [Optimize HILL_CLIMB 8 (2 ^ 33) Double.zero; FlushMetrics;
             WaitFor 20; WaitFor 10].
Proof. vm_compute. reflexivity. Qed.

(** The metrics thread on the same clock: it flushes at once, is woken
    early from its first wait of 10ms and waits again, flushes a second time
    20ms later, and waits for 10ms again. *)
Example MetricsThread_first_flushes :
  (MetricsThread_run sample_env (MetricsThread_start 5000000) ∅).2
  = [FlushMetrics; PrintMetrics; CollectMetrics; WaitFor 10; WaitFor 10;
     FlushMetrics; PrintMetrics; CollectMetrics; WaitFor 10]
  /\ (MetricsThread_run sample_env (MetricsThread_start 5000000) ∅).1.2
     !! ("my_container"%string, "my_resource"%string) = Some 1.
Proof. split; vm_compute; reflexivity. Qed.

(** The periods of the optimisation thread, from the first on. *)
Example period_sequence :
  map period_after (seq 0 16)
  = [10; 20; 40; 80; 160; 320; 640; 1280; 2560; 5120; 10240; 20480; 40960;
     60000; 60000; 60000].
Proof. vm_compute. reflexivity. Qed.

(** A write to a writer whose [AsyncWriter] fails returns [OK]. *)
Example Write_to_failing_writer :
  Writer_Write [1; 2] (Writer_new "dir")
  = (OK, {| target_dir_ := "dir";
            async_writer_ := Error (OTHER_CODE 14) [Str "unavailable"] |}).
Proof. reflexivity. Qed.

(** ** Starting the threads *)

Lemma EnsureModelThreadStarted_OK it :
  (EnsureModelThreadStarted it).1.1 = OK.
Proof.
  unfold EnsureModelThreadStarted.
  destruct (model_thread_ it), (metrics_thread_ it); reflexivity.
Qed.

Lemma EnsureModelThreadStarted_frame it :
  let it' := (EnsureModelThreadStarted it).1.2 in
  dataset it' = dataset it /\
  cancelled_ it' = cancelled_ it /\
  num_input_events_ it' = num_input_events_ it /\
  input_time_ it' = input_time_ it /\
  last_output_time_ it' = last_output_time_ it /\
  cpu_budget_ it' = cpu_budget_ it /\
  ram_budget_ it' = ram_budget_ it.
Proof.
  unfold EnsureModelThreadStarted.
  destruct (model_thread_ it), (metrics_thread_ it); cbn; auto 10.
Qed.

(** [GetNextInternal] without the early return that never happens. *)
Lemma GetNextInternal_eq debug t1 t2 s it :
  GetNextInternal debug t1 t2 s it =
  (it' ← RecordInput debug t1 (EnsureModelThreadStarted it).1.2;
   Returns (s, RecordOutput t2 it',
            (EnsureModelThreadStarted it).2 ++ [InputGetNext])).
Proof.
  unfold GetNextInternal.
  pose proof (EnsureModelThreadStarted_OK it) as Hok.
  destruct (EnsureModelThreadStarted it) as [[st it1] log]; cbn in *.
  subst st. reflexivity.
Qed.

Lemma RecordInput_last_output debug t it it' :
  RecordInput debug t it = Returns it' ->
  last_output_time_ it' = last_output_time_ it.
Proof.
  unfold RecordInput.
  destruct (negb (last_output_time_ it =? 0)); [|by intros [= <-]].
  destruct (debug && negb (last_output_time_ it <=? t)); [done|].
  by intros [= <-].
Qed.

(** ** C1 *)

(** C1, as stated, fails: in a debug build the requests with timestamp pairs
    (100, 50) and (60, 70) are recorded without any assertion failing, although
    the first output timestamp is earlier than its input timestamp. *)
Lemma C1_output_before_input_undetected :
  (exists r,
      GetNext_run true [(100, 50, OK); (60, 70, OK)] sample_iterator
      = Returns r) /\
  ~ outputs_follow_inputs [(100, 50, OK); (60, 70, OK)].
Proof.
  split.
  - eexists. vm_compute. reflexivity.
  - intros H. inversion H as [|? ? Hle _]; subst. cbn in Hle. lia.
Qed.

(** C1 (amended): what a debug build asserts is that every input timestamp
    is no earlier than the output timestamp recorded just before it (when
    that is not 0). A run of element requests returns exactly when this
    holds, and stops on the failed assertion exactly when it does not. *)
Theorem C1_debug_asserts_input_after_last_output reqs it :
  match GetNext_run true reqs it with
  | Returns _ => inputs_follow_outputs (last_output_time_ it) reqs = true
  | Stops why =>
      why = DCheckFailed /\
      inputs_follow_outputs (last_output_time_ it) reqs = false
  end.
Proof.
  revert it. induction reqs as [|[[t1 t2] s] reqs IH]; intros it; [done|].
  cbn [GetNext_run inputs_follow_outputs].
  rewrite GetNextInternal_eq.
  destruct (EnsureModelThreadStarted_frame it) as (_ & _ & _ & _ & Hlast & _).
  set (it1 := (EnsureModelThreadStarted it).1.2) in *.
  rewrite <- Hlast.
  unfold RecordInput.
  destruct (Z.eqb_spec (last_output_time_ it1) 0) as [Hz|Hz]; cbn [negb orb].
  - cbn. specialize (IH (RecordOutput t2 it1)). cbn in IH.
    destruct (GetNext_run true reqs (RecordOutput t2 it1)) as [[it' log']|why];
      cbn; done.
  - cbn [andb].
    destruct (Z.leb_spec (last_output_time_ it1) t1) as [Hle|Hlt]; cbn.
    + match goal with
      | |- context [GetNext_run true reqs ?i] => specialize (IH i)
      end.
      cbn in IH.
      match goal with
      | |- context [GetNext_run true reqs ?i] =>
          destruct (GetNext_run true reqs i) as [[it' log']|why]
      end; cbn; done.
    + done.
Qed.

(** ** Binary64: the conversions of integers *)

Lemma digits2_pos_bounds p :
  2 ^ (Z.pos (digits2_pos p) - 1) <= Z.pos p < 2 ^ Z.pos (digits2_pos p).
Proof.
  induction p as [p IH|p IH|]; cbn [digits2_pos].
  - rewrite Pos2Z.inj_succ. replace (Z.succ (Z.pos (digits2_pos p)) - 1) with (Z.succ (Z.pos (digits2_pos p) - 1)) by lia.
    rewrite !Z.pow_succ_r by lia. lia.
  - rewrite Pos2Z.inj_succ. replace (Z.succ (Z.pos (digits2_pos p)) - 1) with (Z.succ (Z.pos (digits2_pos p) - 1)) by lia.
    rewrite !Z.pow_succ_r by lia. lia.
  - cbn. lia.
Qed.

Lemma digits2_pos_unique m n :
  2 ^ (n - 1) <= Z.pos m < 2 ^ n -> Z.pos (digits2_pos m) = n.
Proof.
  intros [Hlo Hhi]. pose proof (digits2_pos_bounds m) as [Dlo Dhi].
  assert (0 < n).
  { destruct (Z.lt_ge_cases 0 n) as [|Hn]; [done|].
    destruct (Z.eq_dec n 0) as [->|]; [cbn in Hhi; lia|].
    rewrite Z.pow_neg_r in Hhi by lia. lia. }
  destruct (Z.lt_trichotomy (Z.pos (digits2_pos m)) n) as [Hlt|[Heq|Hgt]]; [|done|].
  - assert (2 ^ Z.pos (digits2_pos m) <= 2 ^ (n - 1)) by (apply Z.pow_le_mono_r; lia). lia.
  - assert (2 ^ n <= 2 ^ (Z.pos (digits2_pos m) - 1)) by (apply Z.pow_le_mono_r; lia). lia.
Qed.

Lemma iter_xO_value d : forall mx, Z.pos (Pos.iter xO mx d) = Z.pos mx * 2 ^ Z.pos d.
Proof.
  induction d as [|d IH] using Pos.peano_ind; intros mx.
  - cbn. lia.
  - rewrite Pos.iter_succ, Pos2Z.inj_succ, Z.pow_succ_r by lia.
    rewrite Pos2Z.inj_xO, IH. lia.
Qed.

Lemma iter_xO_digits d : forall mx,
  Z.pos (digits2_pos (Pos.iter xO mx d)) = Z.pos (digits2_pos mx) + Z.pos d.
Proof.
  induction d as [|d IH] using Pos.peano_ind; intros mx.
  - cbn. lia.
  - rewrite Pos.iter_succ. cbn [digits2_pos]. rewrite !Pos2Z.inj_succ, IH. lia.
Qed.

Lemma shr_1_m mrs : 0 <= shr_m mrs -> shr_m (shr_1 mrs) = shr_m mrs / 2.
Proof.
  destruct mrs as [m r s]. cbn [shr_m]. intros Hm.
  destruct m as [|[q|q|]|q]; cbn [shr_1 shr_m]; [| | | |lia].
  - reflexivity.
  - apply Z.div_unique with (r := 1); lia.
  - apply Z.div_unique with (r := 0); lia.
  - reflexivity.
Qed.

Lemma iter_shr_m k : forall mrs,
  0 <= shr_m mrs -> shr_m (iter_pos shr_1 k mrs) = shr_m mrs / 2 ^ Z.pos k.
Proof.
  induction k as [k IH|k IH|]; intros mrs Hm; cbn [iter_pos].
  - assert (H1 : 0 <= shr_m (shr_1 mrs)) by (rewrite shr_1_m by done; apply Z.div_pos; lia).
    assert (H2 : 0 <= shr_m (iter_pos shr_1 k (shr_1 mrs))) by (rewrite IH by done; apply Z.div_pos; lia).
    rewrite IH, IH, shr_1_m by done.
    rewrite !Z.div_div by lia.
    f_equal.
    assert (E : Z.pos k~1 = Z.pos k + Z.pos k + 1) by lia.
    rewrite E, !Z.pow_add_r by lia. lia.
  - assert (H2 : 0 <= shr_m (iter_pos shr_1 k mrs)) by (rewrite IH by done; apply Z.div_pos; lia).
    rewrite IH, IH by done. rewrite !Z.div_div by lia.
    f_equal.
    assert (E : Z.pos k~0 = Z.pos k + Z.pos k) by lia.
    rewrite E, Z.pow_add_r by lia. lia.
  - rewrite shr_1_m by done. reflexivity.
Qed.

Lemma round_nearest_even_bounds m l :
  m <= round_nearest_even m l <= m + 1.
Proof.
  unfold round_nearest_even. destruct l as [|[| |]]; try lia.
  destruct (Z.even m); lia.
Qed.

Lemma binary_round_aux_finish s mx ex lx :
  binary_round_aux prec emax s mx ex lx =
  finish s (round_nearest_even (shr_m (shr_fexp prec emax mx ex lx).1)
                               (loc_of_shr_record (shr_fexp prec emax mx ex lx).1))
         (shr_fexp prec emax mx ex lx).2.
Proof.
  unfold binary_round_aux, finish.
  destruct (shr_fexp prec emax mx ex lx) as [mrs' e']. reflexivity.
Qed.

(** A mantissa of 53 or 54 binary digits at an exponent [e >= -52]. *)
Lemma finish_normal s m e :
  2 ^ 52 <= Z.pos m <= 2 ^ 53 -> -52 <= e ->
  valid_binary (finish s (Z.pos m) e) = true /\
  finite_or_infinite s (finish s (Z.pos m) e) /\
  (Z.pos m < 2 ^ 53 -> e <= emax - prec ->
   finish s (Z.pos m) e = S754_finite s m e).
Proof.
  intros Hm He. unfold finite_or_infinite, finish, shr_fexp.
  cbn [Zdigits2 shr_record_of_loc].
  destruct (Z.eq_dec (Z.pos m) (2 ^ 53)) as [Heq|Hne].
  - assert (Em : m = 9007199254740992%positive) by lia. subst m. clear Heq Hm.
    change (Z.pos (digits2_pos 9007199254740992)) with 54.
    assert (Hf : fexp prec emax (54 + e) - e = 1)
      by (unfold fexp, emin, prec, emax; lia).
    rewrite Hf. cbn [shr iter_pos shr_1 orb shr_m].
    destruct (Z.leb_spec (e + 1) (emax - prec)) as [Hle|Hgt].
    + split; [|split; [left; eauto|lia]].
      unfold valid_binary, SpecFloat.valid_binary, bounded, canonical_mantissa.
      change (Z.pos (digits2_pos 4503599627370496)) with 53.
      apply andb_true_intro. split; [apply Z.eqb_eq|apply Z.leb_le; done].
      unfold fexp, emin, prec, emax. lia.
    + split; [done|]. split; [by right|lia].
  - assert (Hd : Z.pos (digits2_pos m) = 53) by (apply digits2_pos_unique; lia).
    rewrite Hd.
    assert (Hf : fexp prec emax (53 + e) - e = 0)
      by (unfold fexp, emin, prec, emax; lia).
    rewrite Hf. cbn [shr shr_m].
    destruct (Z.leb_spec e (emax - prec)) as [Hle|Hgt].
    + split; [|split; [left; eauto|done]].
      unfold valid_binary, SpecFloat.valid_binary, bounded, canonical_mantissa.
      rewrite Hd.
      apply andb_true_intro. split; [apply Z.eqb_eq|apply Z.leb_le; done].
      unfold fexp, emin, prec, emax. lia.
    + split; [done|]. split; [by right|lia].
Qed.

(** The rounding of a positive integer [p] (at exponent 0). *)
Lemma binary_round_int s p :
  let x := binary_round prec emax s p 0 in
  valid_binary x = true /\
  finite_or_infinite s x /\
  (Z.pos p < 2 ^ 53 ->
   exists m e, x = S754_finite s m e /\ Z.pos (digits2_pos m) = 53 /\
               -52 <= e <= 0 /\ Z.pos m = Z.pos p * 2 ^ (- e)).
Proof.
  cbn zeta. unfold binary_round.
  pose proof (digits2_pos_bounds p) as Hd.
  set (d := Z.pos (digits2_pos p)) in *.
  assert (Hfexp : fexp prec emax (d + 0) = d - 53)
    by (unfold fexp, emin, prec, emax; lia).
  rewrite Hfexp. unfold shl_align.
  destruct (d - 53 - 0) as [|k|k] eqn:Hsub.
  - (* 53 digits *)
    rewrite binary_round_aux_finish. unfold shr_fexp. fold d.
    cbn [Zdigits2 shr_record_of_loc]. fold d.
    assert (Hf : fexp prec emax (d + 0) - 0 = 0)
      by (unfold fexp, emin, prec, emax; lia).
    rewrite Hf. cbn [shr fst snd shr_m loc_of_shr_record round_nearest_even].
    assert (Hp : 2 ^ 52 <= Z.pos p < 2 ^ 53) by (replace d with 53 in Hd by lia; exact Hd).
    destruct (finish_normal s p 0) as (Hv & Hfi & Hex); [lia|lia|].
    split; [done|]. split; [done|]. intros _.
    exists p, 0. split; [apply Hex; [lia|unfold emax, prec; lia]|].
    split; [lia|]. split; [lia|]. cbn. lia.
  - (* more than 53 digits: [k] are shifted out *)
    rewrite binary_round_aux_finish. unfold shr_fexp.
    cbn [Zdigits2 shr_record_of_loc]. fold d.
    assert (Hf : fexp prec emax (d + 0) - 0 = Z.pos k)
      by (unfold fexp, emin, prec, emax; lia).
    rewrite Hf. cbn [shr fst snd].
    set (mrs := iter_pos shr_1 k _).
    assert (Hq : shr_m mrs = Z.pos p / 2 ^ Z.pos k)
      by (unfold mrs; rewrite iter_shr_m; [done|cbn; lia]).
    assert (Hk : 0 < 2 ^ Z.pos k) by (apply Z.pow_pos_nonneg; lia).
    assert (Hpow : 2 ^ d = 2 ^ 53 * 2 ^ Z.pos k)
      by (rewrite <- Z.pow_add_r by lia; f_equal; lia).
    assert (Hpow' : 2 ^ (d - 1) = 2 ^ 52 * 2 ^ Z.pos k)
      by (rewrite <- Z.pow_add_r by lia; f_equal; lia).
    assert (Hqb : 2 ^ 52 <= shr_m mrs < 2 ^ 53).
    { rewrite Hq. split.
      - apply Z.div_le_lower_bound; lia.
      - apply Z.div_lt_upper_bound; lia. }
    pose proof (round_nearest_even_bounds (shr_m mrs) (loc_of_shr_record mrs)) as Hr.
    destruct (round_nearest_even (shr_m mrs) (loc_of_shr_record mrs))
      as [|m'|m'] eqn:Hround; [lia| |lia].
    destruct (finish_normal s m' (0 + Z.pos k)) as (Hv & Hfi & _); [lia|lia|].
    split; [done|]. split; [done|].
    intros Hsmall.
    assert (2 ^ 53 <= 2 ^ (d - 1)) by (apply Z.pow_le_mono_r; lia). lia.
  - (* fewer than 53 digits: the mantissa is shifted left *)
    pose proof (iter_xO_digits k p) as Hdig. fold d in Hdig.
    pose proof (iter_xO_value k p) as Hval.
    set (mz := Pos.iter xO p k) in *.
    assert (Hd53 : Z.pos (digits2_pos mz) = 53) by lia.
    pose proof (digits2_pos_bounds mz) as Hmz. rewrite Hd53 in Hmz.
    rewrite binary_round_aux_finish. unfold shr_fexp.
    cbn [Zdigits2 shr_record_of_loc]. rewrite Hd53.
    assert (Hf : fexp prec emax (53 + (d - 53)) - (d - 53) = 0)
      by (unfold fexp, emin, prec, emax; lia).
    rewrite Hf. cbn [shr fst snd shr_m loc_of_shr_record round_nearest_even].
    destruct (finish_normal s mz (d - 53)) as (Hv & Hfi & Hex);
      [change (53 - 1) with 52 in Hmz; lia|lia|].
    split; [done|]. split; [done|]. intros _.
    exists mz, (d - 53). split; [apply Hex; [lia|unfold emax, prec; lia]|].
    split; [done|]. split; [lia|].
    rewrite Hval. f_equal. f_equal. lia.
Qed.

Lemma binary_normalize_int z :
  valid_binary (binary_normalize prec emax z 0 false) = true /\
  (z <> 0 -> forall s, binary_normalize prec emax z 0 false <> S754_zero s).
Proof.
  destruct z as [|p|p]; cbn [binary_normalize].
  - split; done.
  - destruct (binary_round_int false p) as (Hv & Hfi & _).
    split; [done|]. intros _ s E. rewrite E in Hfi.
    destruct Hfi as [(m & e & ?)|?]; done.
  - destruct (binary_round_int true p) as (Hv & Hfi & _).
    split; [done|]. intros _ s E. rewrite E in Hfi.
    destruct Hfi as [(m & e & ?)|?]; done.
Qed.

Lemma Prim2SF_of_int64 z :
  Prim2SF (Double.of_int64 z) = binary_normalize prec emax z 0 false.
Proof.
  unfold Double.of_int64. apply Prim2SF_SF2Prim, binary_normalize_int.
Qed.

(** The conversion of an integer is zero exactly when the integer is. *)
Lemma of_int64_is_zero z : Double.is_zero (Double.of_int64 z) = (z =? 0).
Proof.
  unfold Double.is_zero. rewrite Prim2SF_of_int64.
  destruct (Z.eqb_spec z 0) as [->|Hz]; [reflexivity|].
  destruct (binary_normalize_int z) as [_ Hnz]. specialize (Hnz Hz).
  destruct (binary_normalize prec emax z 0 false) as [s| | |] eqn:E;
    [|reflexivity..].
  by destruct (Hnz s).
Qed.

(** Below [2^53] the conversion to [double] and back is exact. *)
Lemma to_int64_of_int64 z :
  - 2 ^ 53 < z < 2 ^ 53 -> Double.to_int64 (Double.of_int64 z) = z.
Proof.
  intros Hz. unfold Double.to_int64. rewrite Prim2SF_of_int64.
  assert (Hmag : forall p m e, -52 <= e <= 0 -> Z.pos m = Z.pos p * 2 ^ (- e) ->
            (if 0 <=? e then Z.pos m * 2 ^ e else Z.pos m / 2 ^ (- e)) = Z.pos p).
  { intros p m e He Hv. destruct (Z.leb_spec 0 e).
    - replace e with 0 in * by lia. cbn in Hv. lia.
    - rewrite Hv. apply Z.div_mul. apply Z.pow_nonzero; lia. }
  destruct z as [|p|p]; cbn [binary_normalize]; [reflexivity| |].
  - destruct (binary_round_int false p) as (_ & _ & Hex).
    destruct Hex as (m & e & -> & _ & He & Hv); [lia|].
    rewrite (Hmag p m e He Hv).
    unfold Int64.in_range, Int64.min, Int64.max.
    destruct (Z.leb_spec (- 2 ^ 63) (Z.pos p)); [|lia].
    destruct (Z.leb_spec (Z.pos p) (2 ^ 63 - 1)); [done|lia].
  - destruct (binary_round_int true p) as (_ & _ & Hex).
    destruct Hex as (m & e & -> & _ & He & Hv); [lia|].
    rewrite (Hmag p m e He Hv).
    unfold Int64.in_range, Int64.min, Int64.max.
    destruct (Z.leb_spec (- 2 ^ 63) (- Z.pos p)); [|lia].
    destruct (Z.leb_spec (- Z.pos p) (2 ^ 63 - 1)); [done|lia].
Qed.

(** Below [2^53] the product with [kRamBudgetShare], converted back, is the
    half, rounded down. *)
Lemma half_of_int64 z :
  0 <= z < 2 ^ 53 ->
  Double.to_int64 (PrimFloat.mul kRamBudgetShare (Double.of_int64 z)) = z / 2.
Proof.
  intros Hz. destruct z as [|p|p]; [vm_compute; reflexivity| |lia].
  destruct (binary_round_int false p) as (_ & _ & Hex).
  destruct Hex as (m & e & Hs & Hm & He & Hv); [lia|].
  unfold Double.to_int64. rewrite mul_spec, Prim2SF_of_int64.
  cbn [binary_normalize]. rewrite Hs.
  assert (Hhalf : Prim2SF kRamBudgetShare
                  = S754_finite false 4503599627370496 (-53))
    by (vm_compute; reflexivity).
  rewrite Hhalf. unfold SF64mul, SFmul. cbn [xorb].
  assert (Hmul : (4503599627370496 * m)%positive = Pos.iter xO m 52)
    by reflexivity.
  rewrite Hmul.
  unfold binary_round_aux, shr_fexp. cbn [Zdigits2 shr_record_of_loc].
  rewrite iter_xO_digits, Hm.
  assert (Hf : fexp prec emax (53 + 52 + (-53 + e)) - (-53 + e) = 52)
    by (unfold fexp, emin, prec, emax; lia).
  rewrite Hf. unfold shr.
  assert (Hshr : iter_pos shr_1 52
                   {| shr_m := Z.pos (Pos.iter xO m 52);
                      shr_r := false; shr_s := false |}
                 = {| shr_m := Z.pos m; shr_r := false; shr_s := false |})
    by reflexivity.
  rewrite Hshr.
  cbn [shr_m loc_of_shr_record round_nearest_even Zdigits2 shr_record_of_loc].
  rewrite Hm.
  assert (Hf2 : fexp prec emax (53 + (-53 + e + 52)) - (-53 + e + 52) = 0)
    by (unfold fexp, emin, prec, emax; lia).
  rewrite Hf2. cbn [shr_m].
  destruct (Z.leb_spec (-53 + e + 52) (emax - prec)) as [_|Hgt];
    [|unfold emax, prec in Hgt; lia].
  destruct (Z.leb_spec 0 (-53 + e + 52)); [lia|].
  assert (Hmag : Z.pos m / 2 ^ (- (-53 + e + 52)) = Z.pos p / 2).
  { rewrite Hv. replace (- (-53 + e + 52)) with (- e + 1) by lia.
    rewrite Z.pow_add_r by lia. rewrite Z.pow_1_r.
    rewrite (Z.mul_comm (2 ^ (- e)) 2).
    apply Z.div_mul_cancel_r; [lia|]. apply Z.pow_nonzero; lia. }
  rewrite Hmag.
  assert (0 <= Z.pos p / 2 <= Z.pos p)
    by (split; [apply Z.div_pos; lia|apply Z.div_le_upper_bound; lia]).
  unfold Int64.in_range, Int64.min, Int64.max.
  destruct (Z.leb_spec (- 2 ^ 63) (Z.pos p / 2)); [|lia].
  destruct (Z.leb_spec (Z.pos p / 2) (2 ^ 63 - 1)); [done|lia].
Qed.

(** ** The self input time *)

(** The division of [SelfInputTime] is guarded: the function returns for
    every iterator. *)
Lemma SelfInputTime_returns it :
  SelfInputTime it =
  Returns (if num_input_events_ it =? 0 then Double.zero
           else PrimFloat.div (Double.of_int64 (input_time_ it))
                              (Double.of_int64 (num_input_events_ it))).
Proof.
  unfold SelfInputTime, Double.div. rewrite of_int64_is_zero.
  destruct (num_input_events_ it =? 0); reflexivity.
Qed.

(** ** C2 *)

(** C2: one pass of the optimize loop, from the point after the wait. The
    first step stores [SelfInputTime()], computed from [input_time_] and
    [num_input_events_], in the local [model_input_time]; the second step
    calls [Optimize] with the algorithm and the two budgets, and with the
    constant 0 as [model_input_time], whatever the local holds. *)
Theorem C2_Optimize_is_passed_zero it1 it2 now1 now2 th :
  mt_pc th = MT_SelfInput ->
  exists t th1 th2,
    SelfInputTime it1 = Returns t /\
    ModelThread_step it1 now1 th = Returns (th1, []) /\
    model_input_time th1 = Some t /\
    ModelThread_step it2 now2 th1 =
      Returns (th2, [Optimize (algorithm_ (dataset it2)) (cpu_budget_ it2)
                              (ram_budget_ it2) Double.zero;
                     FlushMetrics]) /\
    model_input_time th2 = Some t.
Proof.
  intros Hpc.
  unfold ModelThread_step at 1. rewrite Hpc, SelfInputTime_returns. cbn.
  do 3 eexists. split; [reflexivity|]. split; [reflexivity|].
  split; [reflexivity|]. split; reflexivity.
Qed.

(** C2 at [busy_iterator]: the self input time read is 5 (10ns over 2
    events), and the argument of [Optimize] is 0. *)
Lemma C2_Optimize_is_passed_zero_witness :
  mt_pc thread_before_pass = MT_SelfInput /\
  SelfInputTime busy_iterator = Returns 5%float /\
  exists t th1 th2,
    SelfInputTime busy_iterator = Returns t /\
    ModelThread_step busy_iterator 2000 thread_before_pass
      = Returns (th1, []) /\
    model_input_time th1 = Some t /\
    ModelThread_step busy_iterator 3000 th1 =
      Returns (th2, [Optimize (algorithm_ (dataset busy_iterator))
                              (cpu_budget_ busy_iterator)
                              (ram_budget_ busy_iterator) Double.zero;
                     FlushMetrics]) /\
    model_input_time th2 = Some t.
Proof.
  split; [reflexivity|]. split; [vm_compute; reflexivity|].
  apply (C2_Optimize_is_passed_zero busy_iterator busy_iterator 2000 3000
           thread_before_pass).
  reflexivity.
Defined.

(** ** Arithmetic of [int64] *)

Lemma Int64_wrap_small z :
  Int64.min <= z <= Int64.max -> Int64.wrap z = z.
Proof.
  unfold Int64.wrap, Int64.min, Int64.max. intros Hz.
  rewrite Z.mod_small; lia.
Qed.

Lemma now_ms_uint64 r : 0 <= r < 2 ^ 64 -> now_ms r = r / 1000.
Proof.
  intros Hr. unfold now_ms, kMillisToMicros. apply Int64_wrap_small.
  assert (0 <= r / 1000) by (apply Z.div_pos; lia).
  assert (r / 1000 < 2 ^ 64 / 1000 + 1)
    by (apply Z.lt_succ_r, Z.div_le_mono; lia).
  change (2 ^ 64 / 1000) with 18446744073709551 in *.
  unfold Int64.min, Int64.max. lia.
Qed.

(** ** The optimisation thread: it never stops, and its period *)

Lemma count_calls_app p log1 log2 :
  count_calls p (log1 ++ log2) = (count_calls p log1 + count_calls p log2)%nat.
Proof. induction log1 as [|c log1 IH]; cbn; [done|]. rewrite IH. lia. Qed.

Lemma period_after_bounds n : 10 <= period_after n <= 60000.
Proof.
  unfold period_after, kOptimizationPeriodThresholdMs, kSecondsToMillis.
  assert (1 <= 2 ^ Z.of_nat n) by (apply Z.pow_le_mono_r with (b := 0); lia).
  lia.
Qed.

(** The update of the period at the end of a pass. *)
Lemma period_after_S n :
  (if negb (period_after n =? kOptimizationPeriodThresholdMs)
   then Z.min (Int64.shl (period_after n) 1) kOptimizationPeriodThresholdMs
   else period_after n)
  = period_after (S n).
Proof.
  pose proof (period_after_bounds n) as Hb.
  assert (Hshl : Int64.shl (period_after n) 1 = 2 * period_after n).
  { unfold Int64.shl. rewrite Z.shiftl_mul_pow2 by lia.
    rewrite Int64_wrap_small; unfold Int64.min, Int64.max; lia. }
  rewrite Hshl.
  unfold period_after in *.
  rewrite Nat2Z.inj_succ, Z.pow_succ_r by lia.
  unfold kOptimizationPeriodThresholdMs, kSecondsToMillis in *.
  assert (1 <= 2 ^ Z.of_nat n) by (apply Z.pow_le_mono_r with (b := 0); lia).
  destruct (Z.eqb_spec (Z.min (10 * 2 ^ Z.of_nat n) (60 * 1000)) (60 * 1000));
    cbn [negb]; lia.
Qed.

Lemma ModelThread_step_inv n it now_micros th :
  ModelThread_inv n th ->
  exists th' log,
    ModelThread_step it now_micros th = Returns (th', log) /\
    ModelThread_inv (n + count_calls is_Optimize log) th'.
Proof.
  intros [Hperiod Hwake]. unfold ModelThread_step.
  destruct (mt_pc th) eqn:Hpc.
  - destruct (cancelled_ it) eqn:Hc; cbn [negb andb].
    + do 2 eexists. split; [reflexivity|]. cbn. rewrite Nat.add_0_r.
      split; cbn; [done|]. intros [|]; done.
    + destruct (Z.ltb_spec (mt_current_time_ms th)
                  (Int64.add (last_optimization_ms th)
                             (optimization_period_ms th))) as [Hlt|Hge].
      * do 2 eexists. split; [reflexivity|]. cbn. rewrite Nat.add_0_r.
        split; cbn; [done|]. intros [|]; done.
      * do 2 eexists. split; [reflexivity|]. cbn. rewrite Nat.add_0_r.
        split; cbn; done.
  - do 2 eexists. split; [reflexivity|]. cbn. rewrite Nat.add_0_r.
    split; cbn; [done|]. intros [|]; done.
  - rewrite SelfInputTime_returns. cbn.
    do 2 eexists. split; [reflexivity|]. cbn. rewrite Nat.add_0_r.
    split; cbn; [done|]. intros _. apply Hwake. by left.
  - do 2 eexists. split; [reflexivity|]. cbn.
    split; cbn; [|intros [|]; done].
    rewrite Hperiod, period_after_S. f_equal. lia.
  - do 2 eexists. split; [reflexivity|]. cbn. rewrite Nat.add_0_r.
    split; [done|]. rewrite Hpc. intros [|]; done.
Qed.

Lemma ModelThread_run_inv env : forall n th,
  ModelThread_inv n th ->
  exists th' log,
    ModelThread_run env th = Returns (th', log) /\
    ModelThread_inv (n + count_calls is_Optimize log) th'.
Proof.
  induction env as [|[it now_micros] env IH]; intros n th Hinv; cbn.
  - do 2 eexists. split; [reflexivity|]. cbn. by rewrite Nat.add_0_r.
  - destruct (ModelThread_step_inv n it now_micros th Hinv)
      as (th1 & log1 & -> & Hinv1).
    cbn.
    destruct (IH _ _ Hinv1) as (th2 & log2 & -> & Hinv2).
    cbn. do 2 eexists. split; [reflexivity|].
    rewrite count_calls_app, Nat.add_assoc. exact Hinv2.
Qed.

(** ** C4 *)

Lemma uint64_now_ms z :
  uint64 z = true -> now_ms z = z / 1000 /\ 0 <= now_ms z <= 18446744073709551.
Proof.
  unfold uint64. intros H. apply andb_prop in H as [H1 H2].
  apply Z.leb_le in H1. apply Z.ltb_lt in H2.
  rewrite now_ms_uint64 by lia. split; [done|].
  split; [apply Z.div_pos; lia|].
  change 18446744073709551 with ((2 ^ 64 - 1) / 1000).
  apply Z.div_le_mono; lia.
Qed.

Lemma period_after_eq k :
  period_after k = Z.min (10 * 2 ^ Z.of_nat k) 60000.
Proof. reflexivity. Qed.

(** One further wake-up: from the end of the [k]-th pass, the wait for the
    inter-wake period, the wake-up after it, and the next pass. *)
Lemma ModelThread_wakeup k it1 r1 e2 it3 r3 it4 r4 it5 r5 th :
  mt_pc th = MT_Test ->
  optimization_period_ms th = period_after k ->
  0 <= last_optimization_ms th <= 18446744073709551 ->
  mt_current_time_ms th = last_optimization_ms th ->
  cancelled_ it1 = false -> cancelled_ it3 = false ->
  uint64 e2.2 = true -> uint64 r5 = true ->
  last_optimization_ms th + period_after k <= now_ms e2.2 ->
  exists th',
    ModelThread_run [(it1, r1); e2; (it3, r3); (it4, r4); (it5, r5)] th
    = Returns
        (th',
         [WaitFor (period_after k);
          Optimize (algorithm_ (dataset it5)) (cpu_budget_ it5)
                   (ram_budget_ it5) Double.zero;
          FlushMetrics]) /\
    mt_pc th' = MT_Test /\
    optimization_period_ms th' = period_after (S k) /\
    last_optimization_ms th' = now_ms r5 /\
    mt_current_time_ms th' = now_ms r5.
Proof.
  intros Hpc Hp Hl Hcur Hc1 Hc3 Hu2 Hu5 Hwake.
  destruct e2 as [it2 r2]. cbn [snd] in *.
  pose proof (period_after_bounds k) as Hb.
  assert (Hadd : Int64.add (last_optimization_ms th) (period_after k)
                 = last_optimization_ms th + period_after k).
  { apply Int64_wrap_small. unfold Int64.min, Int64.max. lia. }
  assert (Hsub : Int64.sub (last_optimization_ms th + period_after k)
                   (last_optimization_ms th) = period_after k).
  { unfold Int64.sub.
    replace (last_optimization_ms th + period_after k - last_optimization_ms th)
      with (period_after k) by lia.
    apply Int64_wrap_small. unfold Int64.min, Int64.max. lia. }
  (* the test that starts the wait *)
  set (th1 := {| mt_pc := MT_Waiting;
                 last_optimization_ms := last_optimization_ms th;
                 optimization_period_ms := optimization_period_ms th;
                 mt_current_time_ms := mt_current_time_ms th;
                 model_input_time := model_input_time th |}).
  assert (H1 : ModelThread_step it1 r1 th
               = Returns (th1, [WaitFor (period_after k)])).
  { unfold ModelThread_step. rewrite Hpc, Hc1, Hp, Hcur, Hadd, Hsub.
    cbn [negb andb].
    destruct (Z.ltb_spec (last_optimization_ms th)
                (last_optimization_ms th + period_after k)); [|lia].
    unfold th1. by rewrite Hp, Hcur. }
  (* the wake-up *)
  set (th2 := {| mt_pc := MT_Test;
                 last_optimization_ms := last_optimization_ms th;
                 optimization_period_ms := optimization_period_ms th;
                 mt_current_time_ms := now_ms r2;
                 model_input_time := model_input_time th |}).
  assert (H2 : ModelThread_step it2 r2 th1 = Returns (th2, [])) by reflexivity.
  (* the test after the wake-up *)
  set (th3 := {| mt_pc := MT_SelfInput;
                 last_optimization_ms := last_optimization_ms th;
                 optimization_period_ms := optimization_period_ms th;
                 mt_current_time_ms := now_ms r2;
                 model_input_time := None |}).
  assert (H3 : ModelThread_step it3 r3 th2 = Returns (th3, [])).
  { unfold ModelThread_step.
    cbn [th2 mt_pc last_optimization_ms optimization_period_ms
           mt_current_time_ms].
    rewrite Hc3, Hp, Hadd. cbn [negb andb].
    destruct (Z.ltb_spec (now_ms r2)
                (last_optimization_ms th + period_after k)); [lia|].
    unfold th3. by rewrite Hp. }
  (* the read of the self input time *)
  assert (H4 : exists t,
             ModelThread_step it4 r4 th3
             = Returns ({| mt_pc := MT_Optimize;
                           last_optimization_ms := last_optimization_ms th;
                           optimization_period_ms := optimization_period_ms th;
                           mt_current_time_ms := now_ms r2;
                           model_input_time := Some t |}, [])).
  { unfold ModelThread_step. cbn [th3 mt_pc].
    rewrite SelfInputTime_returns. by eexists. }
  destruct H4 as [t H4].
  cbn [ModelThread_run]. rewrite H1. cbn [mbind outcome_bind].
  rewrite H2. cbn [mbind outcome_bind]. rewrite H3. cbn [mbind outcome_bind].
  rewrite H4. cbn [mbind outcome_bind].
  (* the pass *)
  unfold ModelThread_step.
  cbn [mt_pc optimization_period_ms mbind outcome_bind].
  rewrite Hp, period_after_S. cbn.
  eexists. split; [reflexivity|]. cbn. done.
Qed.

Lemma ModelThread_run_app env1 : forall env2 th,
  ModelThread_run (env1 ++ env2) th
  = (r ← ModelThread_run env1 th;
     r' ← ModelThread_run env2 r.1;
     Returns (r'.1, r.2 ++ r'.2)).
Proof.
  induction env1 as [|[it now] env1 IH]; intros env2 th; cbn.
  - destruct (ModelThread_run env2 th) as [[th' log']|]; reflexivity.
  - destruct (ModelThread_step it now th) as [[th1 log1]|]; cbn; [|done].
    rewrite IH.
    destruct (ModelThread_run env1 th1) as [[th2 log2]|]; cbn; [|done].
    destruct (ModelThread_run env2 th2) as [[th3 log3]|]; cbn; [|done].
    by rewrite app_assoc.
Qed.

(** Further wake-ups with no cancellation, each wait running to its end. *)
Lemma ModelThread_wakeups n : forall env k th,
  (length env <= n)%nat ->
  mt_pc th = MT_Test ->
  optimization_period_ms th = period_after k ->
  0 <= last_optimization_ms th <= 18446744073709551 ->
  mt_current_time_ms th = last_optimization_ms th ->
  wakeups k (last_optimization_ms th) env = true ->
  exists th',
    ModelThread_run env th = Returns (th', wakeups_log k env) /\
    mt_pc th' = MT_Test /\
    optimization_period_ms th' = period_after (k + length env / 5).
Proof.
  induction n as [|n IH]; intros env k th Hlen Hpc Hp Hl Hcur Hw.
  - destruct env; [|cbn in Hlen; lia].
    exists th. cbn. rewrite Nat.add_0_r. done.
  - destruct env as [|[it1 r1] [|[it2 r2] [|[it3 r3] [|[it4 r4] [|[it5 r5] env]]]]];
      try done.
    + exists th. cbn. rewrite Nat.add_0_r. done.
    + cbn [wakeups] in Hw.
      apply andb_prop in Hw as [Hw Hrest]. apply andb_prop in Hw as [Hw Hwake].
      apply andb_prop in Hw as [Hw Hu5]. apply andb_prop in Hw as [Hw Hu2].
      apply andb_prop in Hw as [Hc1 Hc3].
      apply negb_true_iff in Hc1, Hc3. apply Z.leb_le in Hwake.
      destruct (ModelThread_wakeup k it1 r1 (it2, r2) it3 r3 it4 r4 it5 r5 th)
        as (th1 & Hrun1 & Hpc1 & Hp1 & Hl1 & Hcur1); try done.
      destruct (uint64_now_ms r5 Hu5) as [_ Hb5].
      destruct (IH env (S k) th1) as (th2 & Hrun2 & Hpc2 & Hp2).
      * cbn in Hlen. lia.
      * done.
      * done.
      * by rewrite Hl1.
      * by rewrite Hcur1, Hl1.
      * by rewrite Hl1.
      * exists th2.
        change ((it1, r1) :: (it2, r2) :: (it3, r3) :: (it4, r4) :: (it5, r5)
                :: env)
          with ([(it1, r1); (it2, r2); (it3, r3); (it4, r4); (it5, r5)] ++ env).
        rewrite ModelThread_run_app, Hrun1. cbn [mbind outcome_bind fst snd].
        rewrite Hrun2. cbn [mbind outcome_bind fst snd].
        split; [reflexivity|]. split; [done|].
        rewrite Hp2. f_equal.
        change (length ([(it1, r1); (it2, r2); (it3, r3); (it4, r4); (it5, r5)]
                        ++ env))
          with (5 + length env)%nat.
        replace (5 + length env)%nat with (1 * 5 + length env)%nat by lia.
        rewrite Nat.div_add_l by lia. lia.
Qed.

(** Whatever the clock reads and whatever the thread finds in the iterator,
    a run of the optimisation thread from its start returns; after it the
    period is [min (10 * 2^n) 60000] ms, where [n] is the number of passes
    made, and a pass is under way only if that period has elapsed since the
    last one on the thread's reading of the clock. *)
Lemma ModelThread_run_period env now_micros :
  exists th log,
    ModelThread_run env (ModelThread_start now_micros) = Returns (th, log) /\
    optimization_period_ms th
      = Z.min (10 * 2 ^ Z.of_nat (count_calls is_Optimize log)) 60000 /\
    (mt_pc th = MT_SelfInput \/ mt_pc th = MT_Optimize ->
     Int64.add (last_optimization_ms th) (optimization_period_ms th)
     <= mt_current_time_ms th).
Proof.
  destruct (ModelThread_run_inv env 0 (ModelThread_start now_micros))
    as (th & log & Hrun & Hperiod & Hwake).
  { split; [reflexivity|]. cbn. intros [|]; done. }
  exists th, log. split; [exact Hrun|]. split; [|exact Hwake].
  rewrite Hperiod. reflexivity.
Qed.

(** C4, as stated, fails: a thread started at 5000ms makes its first pass
    at once and then asks to wait for 20ms, not for the 10ms that
    [min (10 * 2^(k-1)) 60000] gives for [k = 1]; woken 10ms after the first
    pass it makes no pass but waits for the 10ms that are left, and the second
    pass begins 20ms after the first. The iterator is never cancelled. *)
Lemma C4_first_inter_wake_period_is_20ms :
  let env :=
    map (fun now_micros => (sample_iterator, now_micros))
        [5000000; 5000000; 5000000;
         5000000; 5010000; 5010000; 5020000; 5020000; 5020000; 5021000] in
  never_cancelled env = true /\
  (exists th,
      ModelThread_run env (ModelThread_start 5000000)
      = Returns
          (th,
           [Optimize HILL_CLIMB 8 (2 ^ 33) Double.zero; FlushMetrics;
            WaitFor 20; WaitFor 10;
            Optimize HILL_CLIMB 8 (2 ^ 33) Double.zero; FlushMetrics])) /\
  20 <> Z.min (10 * 2 ^ (1 - 1)) 60000.
Proof.
  cbn zeta. split; [reflexivity|]. split; [|discriminate].
  eexists. vm_compute. reflexivity.
Qed.

(** C4 (amended): the period starts at 10ms, is doubled by every pass and
    capped at 60000ms: after [n] passes it is [min (10 * 2^n) 60000] ms, and
    no pass begins before the period has elapsed since the last one on the
    thread's reading of the clock, whatever the thread finds. Over
    consecutive wake-ups without cancellation, each wait running to its end,
    of a thread started when the clock reads 10ms or more: the first pass is
    made at once, and the [k]-th inter-wake period, the wait between the
    [k]-th pass and the next, is [min (10 * 2^k) 60000] ms; every pass calls
    [Optimize], with the constant budgets, and [FlushMetrics]. *)
Theorem C4_inter_wake_period_doubles
    start it1 r1 e2 it3 end_micros env :
  10 <= now_ms start ->
  cancelled_ it1 = false ->
  uint64 end_micros = true ->
  wakeups 1 (now_ms end_micros) env = true ->
  (exists th,
      ModelThread_run ((it1, r1) :: e2 :: (it3, end_micros) :: env)
                      (ModelThread_start start)
      = Returns
          (th,
           Optimize (algorithm_ (dataset it3)) (cpu_budget_ it3)
                    (ram_budget_ it3) Double.zero
           :: FlushMetrics :: wakeups_log 1 env) /\
      mt_pc th = MT_Test /\
      optimization_period_ms th
      = Z.min (10 * 2 ^ Z.of_nat (1 + length env / 5)) 60000) /\
  (forall env' start',
      exists th log,
        ModelThread_run env' (ModelThread_start start') = Returns (th, log) /\
        optimization_period_ms th
        = Z.min (10 * 2 ^ Z.of_nat (count_calls is_Optimize log)) 60000 /\
        (mt_pc th = MT_SelfInput \/ mt_pc th = MT_Optimize ->
         Int64.add (last_optimization_ms th) (optimization_period_ms th)
         <= mt_current_time_ms th)).
Proof.
  intros Hstart Hc1 Hu Hw. split; [|apply ModelThread_run_period].
  destruct e2 as [it2 r2].
  destruct (uint64_now_ms end_micros Hu) as [_ Hb].
  (* the first pass: test, self input time, pass *)
  set (th3 := {| mt_pc := MT_Test;
                 last_optimization_ms := now_ms end_micros;
                 optimization_period_ms := period_after 1;
                 mt_current_time_ms := now_ms end_micros;
                 model_input_time :=
                   Some (if num_input_events_ it2 =? 0 then Double.zero
                         else PrimFloat.div
                                (Double.of_int64 (input_time_ it2))
                                (Double.of_int64 (num_input_events_ it2))) |}).
  assert (Hfirst :
    ModelThread_run [(it1, r1); (it2, r2); (it3, end_micros)]
                    (ModelThread_start start)
    = Returns (th3,
               [Optimize (algorithm_ (dataset it3)) (cpu_budget_ it3)
                         (ram_budget_ it3) Double.zero; FlushMetrics])).
  { cbn [ModelThread_run].
    assert (H1 : ModelThread_step it1 r1 (ModelThread_start start)
                 = Returns ({| mt_pc := MT_SelfInput;
                               last_optimization_ms := 0;
                               optimization_period_ms := 10;
                               mt_current_time_ms := now_ms start;
                               model_input_time := None |}, [])).
    { unfold ModelThread_step.
      cbn [ModelThread_start mt_pc last_optimization_ms optimization_period_ms
             mt_current_time_ms model_input_time].
      rewrite Hc1. cbn [negb andb].
      change (Int64.add 0 10) with 10.
      destruct (Z.ltb_spec (now_ms start) 10); [lia|]. reflexivity. }
    set (th1 := {| mt_pc := MT_SelfInput;
                   last_optimization_ms := 0;
                   optimization_period_ms := 10;
                   mt_current_time_ms := now_ms start;
                   model_input_time := None |}) in *.
    set (th2 := {| mt_pc := MT_Optimize;
                   last_optimization_ms := 0;
                   optimization_period_ms := 10;
                   mt_current_time_ms := now_ms start;
                   model_input_time := model_input_time th3 |}).
    assert (H2 : ModelThread_step it2 r2 th1 = Returns (th2, [])).
    { unfold ModelThread_step. cbn [th1 mt_pc].
      rewrite SelfInputTime_returns. reflexivity. }
    assert (H3 : ModelThread_step it3 end_micros th2
                 = Returns (th3,
                            [Optimize (algorithm_ (dataset it3))
                                      (cpu_budget_ it3) (ram_budget_ it3)
                                      Double.zero; FlushMetrics])).
    { unfold ModelThread_step. cbn [th2 mt_pc optimization_period_ms].
      pose proof (period_after_S 0) as HS.
      change (period_after 0) with 10 in HS. rewrite HS. reflexivity. }
    rewrite H1. cbn [mbind outcome_bind].
    rewrite H2. cbn [mbind outcome_bind].
    rewrite H3. reflexivity. }
  destruct (ModelThread_wakeups (length env) env 1 th3)
    as (th & Hrun & Hpc & Hp); try done.
  exists th.
  change ((it1, r1) :: (it2, r2) :: (it3, end_micros) :: env)
    with ([(it1, r1); (it2, r2); (it3, end_micros)] ++ env).
  rewrite ModelThread_run_app, Hfirst. cbn [mbind outcome_bind fst snd].
  rewrite Hrun. cbn [mbind outcome_bind fst snd].
  split; [reflexivity|]. split; [done|]. rewrite Hp. reflexivity.
Qed.

(** C4 (amended) for three passes of a thread started at 5000ms: the waits
    between them are 20ms and 40ms. *)
Lemma C4_inter_wake_period_doubles_witness :
  10 <= now_ms 5000000 /\
  cancelled_ sample_iterator = false /\
  uint64 5001000 = true /\
  wakeups 1 (now_ms 5001000) sample_wakeups = true /\
  wakeups_log 1 sample_wakeups
  = [WaitFor 20; Optimize HILL_CLIMB 8 (2 ^ 33) Double.zero; FlushMetrics;
     WaitFor 40; Optimize HILL_CLIMB 8 (2 ^ 33) Double.zero; FlushMetrics] /\
  (exists th,
      ModelThread_run
        ((sample_iterator, 5000000) :: (sample_iterator, 5000000)
         :: (sample_iterator, 5001000) :: sample_wakeups)
        (ModelThread_start 5000000)
      = Returns
          (th,
           Optimize (algorithm_ (dataset sample_iterator))
                    (cpu_budget_ sample_iterator)
                    (ram_budget_ sample_iterator) Double.zero
           :: FlushMetrics :: wakeups_log 1 sample_wakeups) /\
      mt_pc th = MT_Test /\
      optimization_period_ms th
      = Z.min (10 * 2 ^ Z.of_nat (1 + length sample_wakeups / 5)) 60000) /\
  (forall env' start',
      exists th log,
        ModelThread_run env' (ModelThread_start start') = Returns (th, log) /\
        optimization_period_ms th
        = Z.min (10 * 2 ^ Z.of_nat (count_calls is_Optimize log)) 60000 /\
        (mt_pc th = MT_SelfInput \/ mt_pc th = MT_Optimize ->
         Int64.add (last_optimization_ms th) (optimization_period_ms th)
         <= mt_current_time_ms th)).
Proof.
  assert (H1 : 10 <= now_ms 5000000) by (vm_compute; discriminate).
  assert (H2 : cancelled_ sample_iterator = false) by reflexivity.
  assert (H3 : uint64 5001000 = true) by reflexivity.
  assert (H4 : wakeups 1 (now_ms 5001000) sample_wakeups = true)
    by (vm_compute; reflexivity).
  split; [exact H1|]. split; [exact H2|]. split; [exact H3|].
  split; [exact H4|]. split; [vm_compute; reflexivity|].
  exact (C4_inter_wake_period_doubles 5000000 sample_iterator 5000000
           (sample_iterator, 5000000) sample_iterator 5001000 sample_wakeups
           H1 H2 H3 H4).
Defined.

(** ** C5 *)

Lemma MetricsThread_step_period it now_micros th rm :
  recording_period_ms (MetricsThread_step it now_micros th rm).1.1
  = recording_period_ms th.
Proof.
  unfold MetricsThread_step.
  destruct (xt_pc th); try reflexivity.
  - destruct (negb (cancelled_ it) && _); reflexivity.
  - destruct (cancelled_ it); reflexivity.
Qed.

Lemma MetricsThread_run_period env : forall th rm,
  recording_period_ms (MetricsThread_run env th rm).1.1
  = recording_period_ms th.
Proof.
  induction env as [|[it now_micros] env IH]; intros th rm; cbn; [done|].
  pose proof (MetricsThread_step_period it now_micros th rm) as Hstep.
  destruct (MetricsThread_step it now_micros th rm) as [[th1 rm1] log1].
  specialize (IH th1 rm1).
  destruct (MetricsThread_run env th1 rm1) as [[th2 rm2] log2].
  cbn in *. congruence.
Qed.

(** C5: whatever the clock reads, whatever the thread finds in the iterator
    and however many steps (and flushes) the metrics loop has made, its
    recording period is 10ms, and a wait that its next step makes lasts until
    10ms after the last recording. *)
Theorem C5_recording_period_is_constant env now_micros rm :
  let th := (MetricsThread_run env (MetricsThread_start now_micros) rm).1.1 in
  recording_period_ms th = 10 /\
  forall it now_micros' rm' w,
    In (WaitFor w) (MetricsThread_step it now_micros' th rm').2 ->
    w = Int64.sub (Int64.add (last_recording_time_ms th) 10)
                  (xt_current_time_ms th).
Proof.
  cbn zeta.
  pose proof (MetricsThread_run_period env (MetricsThread_start now_micros) rm)
    as Hperiod.
  cbn [MetricsThread_start recording_period_ms] in Hperiod.
  split; [exact Hperiod|].
  intros it now' rm' w. unfold MetricsThread_step.
  destruct (xt_pc _); cbn.
  - destruct (negb (cancelled_ it) && _); cbn; [|done].
    rewrite Hperiod. intros [[= <-]|[]]. reflexivity.
  - done.
  - destruct (cancelled_ it); cbn; [done|]. intros [|[|[|]]]; done.
  - done.
Qed.

(** ** C7 *)

Lemma Iterator_delete_cancelled it :
  cancelled_ (Iterator_delete it).1 = true /\
  (Iterator_delete it).2 = [NotifyAll].
Proof. split; reflexivity. Qed.

(** Once [cancelled_] is set, the optimisation thread returns from the test
    of its loop, or from its wait through the test, without any call. *)
Lemma ModelThread_cancelled it1 it2 now1 now2 th :
  cancelled_ it1 = true -> cancelled_ it2 = true ->
  mt_pc th = MT_Test \/ mt_pc th = MT_Waiting ->
  exists th',
    ModelThread_run [(it1, now1); (it2, now2)] th = Returns (th', []) /\
    mt_pc th' = MT_Returned.
Proof.
  intros Hc1 Hc2 [Hpc|Hpc]; cbn; unfold ModelThread_step; rewrite Hpc.
  - rewrite Hc1. cbn. eexists. split; reflexivity.
  - cbn. rewrite Hc2. cbn. eexists. split; reflexivity.
Qed.

(** The same for the metrics thread, which reads [cancelled_] once more
    after it has released the lock. *)
Lemma MetricsThread_cancelled it1 it2 it3 now1 now2 now3 th rm :
  cancelled_ it1 = true -> cancelled_ it2 = true -> cancelled_ it3 = true ->
  xt_pc th <> XT_Returned ->
  exists th',
    MetricsThread_run [(it1, now1); (it2, now2); (it3, now3)] th rm
    = (th', rm, []) /\
    xt_pc th' = XT_Returned.
Proof.
  intros Hc1 Hc2 Hc3 Hpc. cbn. unfold MetricsThread_step.
  destruct (xt_pc th) eqn:E; [| | |done].
  - rewrite Hc1. cbn. rewrite Hc2. cbn. eexists. split; reflexivity.
  - cbn. rewrite Hc2. cbn. rewrite Hc3. cbn. eexists. split; reflexivity.
  - rewrite Hc1. cbn. eexists. split; reflexivity.
Qed.

(** A pass that was under way when [cancelled_] was set is completed; the
    thread then returns at the next test. From any point, four steps
    suffice, with at most one call of [Optimize]. *)
Lemma ModelThread_cancelled_anywhere it now th :
  cancelled_ it = true ->
  exists th' log,
    ModelThread_run [(it, now); (it, now); (it, now); (it, now)] th
    = Returns (th', log) /\
    mt_pc th' = MT_Returned /\
    (count_calls is_Optimize log <= 1)%nat.
Proof.
  intros Hc. cbn. unfold ModelThread_step.
  destruct (mt_pc th) eqn:E;
    repeat (progress (cbn; rewrite ?SelfInputTime_returns, ?Hc, ?E));
    do 2 eexists; (split; [reflexivity|]); cbn; split; (done || lia).
Qed.

(** C7: after [~Iterator] has set [cancelled_] and notified the condition
    variable, the optimize loop, at the test of its loop or woken from its
    wait, returns within two steps, and the metrics loop, anywhere before
    its return, within three; neither calls [Optimize] or [FlushMetrics] (or
    anything else) on the way, whatever the clock reads. *)
Theorem C7_cancelled_loops_return it now1 now2 now3 mt xt rm :
  mt_pc mt = MT_Test \/ mt_pc mt = MT_Waiting ->
  xt_pc xt <> XT_Returned ->
  let it' := (Iterator_delete it).1 in
  cancelled_ it' = true /\
  (Iterator_delete it).2 = [NotifyAll] /\
  (exists mt',
      ModelThread_run [(it', now1); (it', now2)] mt = Returns (mt', []) /\
      mt_pc mt' = MT_Returned) /\
  (exists xt',
      MetricsThread_run [(it', now1); (it', now2); (it', now3)] xt rm
      = (xt', rm, []) /\
      xt_pc xt' = XT_Returned).
Proof.
  intros Hmt Hxt it'.
  split; [reflexivity|]. split; [reflexivity|]. split.
  - by apply ModelThread_cancelled.
  - by apply MetricsThread_cancelled.
Qed.

(** C7 for two threads blocked in their waits when the iterator is
    deleted. *)
Lemma C7_cancelled_loops_return_witness :
  let mt := {| mt_pc := MT_Waiting; last_optimization_ms := 1000;
               optimization_period_ms := 20; mt_current_time_ms := 1000;
               model_input_time := None |} in
  let xt := {| xt_pc := XT_Waiting; last_recording_time_ms := 1000;
               recording_period_ms := 10; xt_current_time_ms := 1000 |} in
  (mt_pc mt = MT_Test \/ mt_pc mt = MT_Waiting) /\
  xt_pc xt <> XT_Returned /\
  let it' := (Iterator_delete sample_iterator).1 in
  cancelled_ it' = true /\
  (Iterator_delete sample_iterator).2 = [NotifyAll] /\
  (exists mt',
      ModelThread_run [(it', 1001000); (it', 1002000)] mt
      = Returns (mt', []) /\
      mt_pc mt' = MT_Returned) /\
  (exists xt',
      MetricsThread_run [(it', 1001000); (it', 1002000); (it', 1003000)] xt ∅
      = (xt', ∅, []) /\
      xt_pc xt' = XT_Returned).
Proof.
  intros mt xt.
  split; [right; reflexivity|]. split; [discriminate|].
  apply (C7_cancelled_loops_return sample_iterator 1001000 1002000 1003000
           mt xt ∅).
  - right; reflexivity.
  - discriminate.
Defined.

(** ** C8 *)

Lemma RecordInput_frame debug t it it' :
  RecordInput debug t it = Returns it' ->
  dataset it' = dataset it /\
  model_thread_ it' = model_thread_ it /\
  metrics_thread_ it' = metrics_thread_ it /\
  cancelled_ it' = cancelled_ it /\
  cpu_budget_ it' = cpu_budget_ it /\
  ram_budget_ it' = ram_budget_ it.
Proof.
  unfold RecordInput.
  destruct (negb (last_output_time_ it =? 0)); [|intros [= <-]; auto 10].
  destruct (debug && negb (last_output_time_ it <=? t)); [done|].
  intros [= <-]. cbn. auto 10.
Qed.

(** With [DCHECK] compiled out, [RecordInput] returns. *)
Lemma RecordInput_release t it :
  exists it', RecordInput false t it = Returns it'.
Proof.
  unfold RecordInput. cbn [andb].
  destruct (negb (last_output_time_ it =? 0)); eexists; reflexivity.
Qed.

Lemma EnsureModelThreadStarted_threads it :
  let r := EnsureModelThreadStarted it in
  count_calls (is_StartThread tf_data_model) r.2
    = match model_thread_ it with Some _ => 0 | None => 1 end%nat /\
  count_calls (is_StartThread tf_data_metrics) r.2
    = match metrics_thread_ it with Some _ => 0 | None => 1 end%nat /\
  (exists t, model_thread_ r.1.2 = Some t) /\
  (exists t, metrics_thread_ r.1.2 = Some t) /\
  (forall t, model_thread_ it = Some t -> model_thread_ r.1.2 = Some t) /\
  (forall t, metrics_thread_ it = Some t -> metrics_thread_ r.1.2 = Some t).
Proof.
  unfold EnsureModelThreadStarted.
  destruct (model_thread_ it), (metrics_thread_ it); cbn;
    repeat split; eauto; done.
Qed.

Lemma EnsureModelThreadStarted_idempotent it :
  let it1 := (EnsureModelThreadStarted it).1.2 in
  EnsureModelThreadStarted it1 = (OK, it1, []).
Proof.
  unfold EnsureModelThreadStarted.
  destruct (model_thread_ it), (metrics_thread_ it); reflexivity.
Qed.

Lemma GetNext_run_threads debug reqs : forall it,
  match GetNext_run debug reqs it with
  | Returns (it', log) =>
      count_calls (is_StartThread tf_data_model) log
        = starts (model_thread_ it) reqs /\
      count_calls (is_StartThread tf_data_metrics) log
        = starts (metrics_thread_ it) reqs /\
      (forall t, model_thread_ it = Some t -> model_thread_ it' = Some t) /\
      (forall t, metrics_thread_ it = Some t -> metrics_thread_ it' = Some t)
  | Stops _ => debug = true
  end.
Proof.
  induction reqs as [|[[t1 t2] s] reqs IH]; intros it.
  - cbn. by destruct (model_thread_ it), (metrics_thread_ it).
  - cbn [GetNext_run]. rewrite GetNextInternal_eq.
    destruct (EnsureModelThreadStarted_threads it)
      as (Hm & Hx & [tm Htm] & [tx Htx] & Hkm & Hkx).
    set (it1 := (EnsureModelThreadStarted it).1.2) in *.
    set (log1 := (EnsureModelThreadStarted it).2) in *.
    destruct (RecordInput debug t1 it1) as [it2|why] eqn:Hrec; cbn.
    2:{ destruct debug; [done|].
        destruct (RecordInput_release t1 it1) as [it2 Hret]. congruence. }
    destruct (RecordInput_frame _ _ _ _ Hrec) as (_ & Hm2 & Hx2 & _).
    specialize (IH (RecordOutput t2 it2)).
    destruct (GetNext_run debug reqs (RecordOutput t2 it2))
      as [[it' log']|why]; cbn; [|done].
    cbn in IH. rewrite Hm2, Hx2, Htm, Htx in IH.
    destruct IH as (Hcm & Hcx & Hpm & Hpx).
    rewrite !count_calls_app, Hm, Hx, Hcm, Hcx.
    assert (Hs : forall e, starts (Some e) reqs = 0%nat)
      by (intros e; by destruct reqs).
    rewrite !Hs. cbn.
    repeat split.
    + by destruct (model_thread_ it).
    + by destruct (metrics_thread_ it).
    + intros t Ht. rewrite (Hkm t Ht) in Htm. injection Htm as ->.
      by apply Hpm.
    + intros t Ht. rewrite (Hkx t Ht) in Htx. injection Htx as ->.
      by apply Hpx.
Qed.

(** C8: a new iterator has neither thread; a call of
    [EnsureModelThreadStarted] after another one starts nothing and leaves
    the iterator as it is; and over every sequence of element requests each
    thread is started once when it did not exist and there is a request (at
    the first one), not at all otherwise, and a thread that exists stays the
    same. A run stops only in a debug build. *)
Theorem C8_threads_started_once debug reqs port d it :
  (model_thread_ (Iterator_new port d) = None /\
   metrics_thread_ (Iterator_new port d) = None) /\
  (let it1 := (EnsureModelThreadStarted it).1.2 in
   EnsureModelThreadStarted it1 = (OK, it1, [])) /\
  match GetNext_run debug reqs it with
  | Returns (it', log) =>
      count_calls (is_StartThread tf_data_model) log
        = starts (model_thread_ it) reqs /\
      count_calls (is_StartThread tf_data_metrics) log
        = starts (metrics_thread_ it) reqs /\
      (forall t, model_thread_ it = Some t -> model_thread_ it' = Some t) /\
      (forall t, metrics_thread_ it = Some t -> metrics_thread_ it' = Some t)
  | Stops _ => debug = true
  end.
Proof.
  split; [split; reflexivity|].
  split; [apply EnsureModelThreadStarted_idempotent|].
  apply GetNext_run_threads.
Qed.

(** ** C9 *)

Lemma Writer_run_OK `{AsyncWriterOps Tensor AsyncWriter}
    (ops : list (writer_op (Tensor := Tensor))) :
  forall w : Writer (AsyncWriter := AsyncWriter),
    Forall (fun s => s = OK) (Writer_run ops w).1.
Proof.
  induction ops as [|[tensors|s] ops IH]; intros w; cbn.
  - constructor.
  - specialize (IH {| target_dir_ := target_dir_ w;
                      async_writer_ :=
                        AsyncWriter_Write tensors (async_writer_ w) |}).
    destruct (Writer_run ops _) as [ss w']. cbn in *. by constructor.
  - apply IH.
Qed.

(** C9: for every implementation of the asynchronous writer, every writer
    and every vector of tensors, [Write] returns [Status::OK]; the [done]
    callback leaves the writer as it is whatever status it is called with;
    so over every sequence of writes and of completions with any statuses,
    each write returns [Status::OK]. *)
Theorem C9_Write_returns_OK `{AsyncWriterOps Tensor AsyncWriter}
    (ops : list (writer_op (Tensor := Tensor)))
    (w : Writer (AsyncWriter := AsyncWriter))
    (tensors : list Tensor) (s : Status) :
  (Writer_Write tensors w).1 = OK /\
  Writer_done s w = w /\
  (Writer_Write tensors (Writer_done s w)).1 = OK /\
  Forall (fun s => s = OK) (Writer_run ops w).1.
Proof.
  split; [reflexivity|]. split; [reflexivity|]. split; [reflexivity|].
  apply Writer_run_OK.
Qed.

(** ** C10 *)

Lemma RecordInput_before_output debug t it :
  last_output_time_ it = 0 -> RecordInput debug t it = Returns it.
Proof. unfold RecordInput. by intros ->. Qed.

(** C10: while [last_output_time_] is 0, calls of [RecordInput] return the
    iterator as it was, with [input_time_] and [num_input_events_] unchanged;
    on a new iterator [SelfInputTime] therefore still returns 0 after them;
    it returns 0 whenever [num_input_events_] is 0; and on no iterator does
    it divide by zero. *)
Theorem C10_RecordInput_before_any_output debug times it :
  last_output_time_ it = 0 ->
  RecordInput_run debug times it = Returns it /\
  (forall port d it',
      RecordInput_run debug times (Iterator_new port d) = Returns it' ->
      SelfInputTime it' = Returns Double.zero) /\
  (forall it', num_input_events_ it' = 0 ->
               SelfInputTime it' = Returns Double.zero) /\
  (forall it', exists t, SelfInputTime it' = Returns t).
Proof.
  intros Hlast.
  assert (Hrun : forall it0, last_output_time_ it0 = 0 ->
                             RecordInput_run debug times it0 = Returns it0).
  { intros it0 H0. induction times as [|t times IH]; cbn; [done|].
    rewrite RecordInput_before_output by done. cbn. exact IH. }
  split; [by apply Hrun|]. split; [|split].
  - intros port d it'. rewrite Hrun by reflexivity. by intros [= <-].
  - intros it' Hn. rewrite SelfInputTime_returns, Hn. reflexivity.
  - intros it'. rewrite SelfInputTime_returns. by eexists.
Qed.

(** C10 on a new iterator, with two inputs recorded before any output. *)
Lemma C10_RecordInput_before_any_output_witness :
  last_output_time_ sample_iterator = 0 /\
  RecordInput_run true [5; 7] sample_iterator = Returns sample_iterator /\
  (forall port d it',
      RecordInput_run true [5; 7] (Iterator_new port d) = Returns it' ->
      SelfInputTime it' = Returns Double.zero) /\
  (forall it', num_input_events_ it' = 0 ->
               SelfInputTime it' = Returns Double.zero) /\
  (forall it', exists t, SelfInputTime it' = Returns t).
Proof.
  split; [reflexivity|].
  apply (C10_RecordInput_before_any_output true [5; 7] sample_iterator).
  reflexivity.
Defined.

(** ** C6 *)

(** C6: take a configuration whose attributes can be read: [cpu_budget]
    has the value [cpu], [ram_budget] the value [ram] (0 when the attribute
    is absent), and [algorithm], if present, some value. If [cpu] or [ram] is
    negative the construction of the kernel ends with an invalid-argument
    error, and so does the creation of the dataset: none is made. Otherwise
    the kernel is constructed with these budgets and the dataset made from
    it. *)
Theorem C6_negative_budget_rejected ctx cpu ram :
  (HasAttr ctx kAlgorithm = true -> exists a, GetAttr ctx kAlgorithm = Value a) ->
  GetAttr ctx kCpuBudget = Value cpu ->
  (if HasAttr ctx kRamBudget then GetAttr ctx kRamBudget = Value ram
   else ram = 0) ->
  if (cpu <? 0) || (ram <? 0) then
    exists msg,
      ModelDatasetOp_new ctx = Failure INVALID_ARGUMENT msg /\
      CreateDataset ctx = Failure INVALID_ARGUMENT msg
  else
    exists op,
      ModelDatasetOp_new ctx = Value op /\
      op_cpu_budget_ op = cpu /\
      op_ram_budget_ op = ram /\
      CreateDataset ctx = Value (MakeDataset op).
Proof.
  intros Halg Hcpu Hram.
  unfold CreateDataset, ModelDatasetOp_new.
  assert (Ha : exists a,
             (if HasAttr ctx kAlgorithm
              then algorithm ← GetAttr ctx kAlgorithm;
                   Value (AutotuneAlgorithm_of algorithm)
              else Value HILL_CLIMB) = Value a).
  { destruct (HasAttr ctx kAlgorithm); [|by eexists].
    destruct Halg as [a ->]; [done|]. by eexists. }
  destruct Ha as [a ->]. cbn. rewrite Hcpu. cbn.
  assert (Hr : (if HasAttr ctx kRamBudget then GetAttr ctx kRamBudget
                else Value 0) = Value ram).
  { destruct (HasAttr ctx kRamBudget); [done|by subst]. }
  unfold OP_REQUIRES.
  destruct (Z.ltb_spec cpu 0) as [Hc|Hc]; cbn [orb].
  - destruct (Z.leb_spec 0 cpu); [lia|]. cbn. eexists. split; reflexivity.
  - destruct (Z.leb_spec 0 cpu); [|lia]. cbn. rewrite Hr. cbn.
    destruct (Z.ltb_spec ram 0) as [Hm|Hm].
    + destruct (Z.leb_spec 0 ram); [lia|]. cbn. eexists. split; reflexivity.
    + destruct (Z.leb_spec 0 ram); [|lia]. cbn. eexists.
      split; [reflexivity|]. cbn. done.
Qed.

(** C6 for [cpu_budget = 2] and [ram_budget = -5]. *)
Lemma C6_negative_budget_rejected_witness :
  let ctx := ctx_of_attrs {[ kCpuBudget := 2; kRamBudget := -5 ]} in
  (HasAttr ctx kAlgorithm = true -> exists a, GetAttr ctx kAlgorithm = Value a) /\
  GetAttr ctx kCpuBudget = Value 2 /\
  (if HasAttr ctx kRamBudget then GetAttr ctx kRamBudget = Value (-5)
   else -5 = 0) /\
  exists msg,
    ModelDatasetOp_new ctx = Failure INVALID_ARGUMENT msg /\
    CreateDataset ctx = Failure INVALID_ARGUMENT msg.
Proof.
  intros ctx.
  assert (H1 : HasAttr ctx kAlgorithm = true ->
               exists a, GetAttr ctx kAlgorithm = Value a)
    by (vm_compute; discriminate).
  assert (H2 : GetAttr ctx kCpuBudget = Value 2) by (vm_compute; reflexivity).
  assert (H3 : if HasAttr ctx kRamBudget
               then GetAttr ctx kRamBudget = Value (-5) else -5 = 0)
    by (vm_compute; reflexivity).
  split; [exact H1|]. split; [exact H2|]. split; [exact H3|].
  exact (C6_negative_budget_rejected ctx 2 (-5) H1 H2 H3).
Defined.

(** ** C3 *)

(** The budget of CPU cores is resolved as the claim says. *)
Lemma cpu_budget_resolved port d :
  cpu_budget_ (Iterator_new port d)
  = if dataset_cpu_budget_ d =? 0 then NumSchedulableCPUs port
    else dataset_cpu_budget_ d.
Proof. reflexivity. Qed.

(** Below [2^53] bytes the budget of RAM is resolved as the claim says:
    0 to half of the available RAM, anything else to itself. *)
Lemma ram_budget_resolved port d :
  0 <= AvailableRam port < 2 ^ 53 ->
  0 <= dataset_ram_budget_ d < 2 ^ 53 ->
  ram_budget_ (Iterator_new port d)
  = if dataset_ram_budget_ d =? 0 then AvailableRam port / 2
    else dataset_ram_budget_ d.
Proof.
  intros Ha Hr. cbn [Iterator_new ram_budget_].
  destruct (dataset_ram_budget_ d =? 0).
  - by apply half_of_int64.
  - apply to_int64_of_int64. lia.
Qed.

(** With 16GiB of RAM available, the budget 0 resolves to 8GiB, and a budget
    of 1GiB is kept. *)
Example ram_budget_auto :
  ram_budget_ (Iterator_new sample_port sample_dataset) = 2 ^ 33.
Proof. vm_compute. reflexivity. Qed.

Example ram_budget_1GiB :
  ram_budget_
    (Iterator_new sample_port
       {| algorithm_ := HILL_CLIMB; dataset_cpu_budget_ := 4;
          dataset_ram_budget_ := 2 ^ 30 |}) = 2 ^ 30.
Proof. vm_compute. reflexivity. Qed.

(** Neither budget changes over a sequence of element requests: they are
    [const] members. *)
Lemma budgets_constant debug reqs : forall it it' log,
  GetNext_run debug reqs it = Returns (it', log) ->
  cpu_budget_ it' = cpu_budget_ it /\ ram_budget_ it' = ram_budget_ it.
Proof.
  induction reqs as [|[[t1 t2] s] reqs IH]; intros it it' log; cbn.
  - by intros [= <- _].
  - rewrite GetNextInternal_eq.
    destruct (EnsureModelThreadStarted_frame it)
      as (_ & _ & _ & _ & _ & Hc & Hr).
    destruct (RecordInput debug t1 _) as [it2|] eqn:Hrec; cbn; [|done].
    destruct (RecordInput_frame _ _ _ _ Hrec) as (_ & _ & _ & _ & Hc2 & Hr2).
    destruct (GetNext_run debug reqs (RecordOutput t2 it2))
      as [[it3 log3]|] eqn:Hrun; cbn; [|done].
    intros [= <- _]. destruct (IH _ _ _ Hrun) as [Hc3 Hr3]. cbn in *.
    split; congruence.
Qed.

(** C3, where the code departs from it: the configuration with
    [cpu_budget = 1] and [ram_budget = 2^53 + 1] bytes is accepted, and the
    iterator of its dataset does not use that [ram_budget] unchanged. It is
    the [int64] branch of a conditional expression whose other branch is a
    [double], so it is converted to [double], which rounds it to [2^53], and
    back. The [cpu_budget] beside it is kept. *)
Theorem C3_ram_budget_rounded_through_double :
  exists d,
    CreateDataset (ctx_of_attrs {[ kCpuBudget := 1; kRamBudget := 2 ^ 53 + 1 ]})
    = Value d /\
    dataset_ram_budget_ d = 2 ^ 53 + 1 /\
    ram_budget_ (Iterator_new sample_port d) = 2 ^ 53 /\
    ram_budget_ (Iterator_new sample_port d) <> dataset_ram_budget_ d /\
    cpu_budget_ (Iterator_new sample_port d) = dataset_cpu_budget_ d.
Proof.
  eexists. split; [vm_compute; reflexivity|].
  split; [reflexivity|]. split; [vm_compute; reflexivity|].
  split; [vm_compute; discriminate|reflexivity].
Qed.

(** * Further properties *)

(** ** Helper lemmas *)

(** ** More on element requests *)

Lemma Int64_wrap_add_l a b : Int64.wrap (Int64.wrap a + b) = Int64.wrap (a + b).
Proof.
  unfold Int64.wrap. f_equal.
  replace ((a + 2 ^ 63) mod 2 ^ 64 - 2 ^ 63 + b + 2 ^ 63)
    with ((a + 2 ^ 63) mod 2 ^ 64 + b) by lia.
  rewrite Zplus_mod_idemp_l. f_equal. lia.
Qed.

Lemma Int64_wrap_add_r a b : Int64.wrap (a + Int64.wrap b) = Int64.wrap (a + b).
Proof. rewrite Z.add_comm, Int64_wrap_add_l. f_equal. lia. Qed.

Lemma Int64_wrap_idem a : Int64.wrap (Int64.wrap a) = Int64.wrap a.
Proof.
  replace (Int64.wrap a) with (Int64.wrap a + 0) at 1 by lia.
  rewrite Int64_wrap_add_l. f_equal. lia.
Qed.

Lemma Int64_wrap_range z : Int64.min <= Int64.wrap z <= Int64.max.
Proof.
  unfold Int64.wrap, Int64.min, Int64.max.
  pose proof (Z.mod_pos_bound (z + 2 ^ 63) (2 ^ 64)). lia.
Qed.

(** The release build never stops in [RecordInput]; what it returns. *)
Lemma RecordInput_release_eq t it :
  RecordInput false t it
  = Returns (if last_output_time_ it =? 0 then it
             else set_input (Int64.add (num_input_events_ it) 1)
                    (Int64.add (input_time_ it)
                               (Int64.sub t (last_output_time_ it))) it).
Proof.
  unfold RecordInput. cbn [andb]. by destruct (last_output_time_ it =? 0).
Qed.

(** When the debug build returns from [RecordInput], the release build
    returns the same. *)
Lemma RecordInput_debug_release t it it' :
  RecordInput true t it = Returns it' -> RecordInput false t it = Returns it'.
Proof.
  unfold RecordInput. cbn [andb].
  destruct (negb (last_output_time_ it =? 0)); [|done].
  by destruct (negb (last_output_time_ it <=? t)).
Qed.

(** The state of the iterator after a run in the release build, with the
    counters taken modulo [2^64]. *)
Lemma GetNext_run_release reqs : forall it,
  exists it' log,
    GetNext_run false reqs it = Returns (it', log) /\
    Int64.wrap (num_input_events_ it')
    = Int64.wrap (num_input_events_ it
                  + Z.of_nat (length (input_gaps (last_output_time_ it) reqs))) /\
    Int64.wrap (input_time_ it')
    = Int64.wrap (input_time_ it
                  + sum_Z (input_gaps (last_output_time_ it) reqs)) /\
    (input_gaps (last_output_time_ it) reqs = [] ->
     num_input_events_ it' = num_input_events_ it /\
     input_time_ it' = input_time_ it) /\
    (input_gaps (last_output_time_ it) reqs <> [] ->
     Int64.wrap (num_input_events_ it') = num_input_events_ it' /\
     Int64.wrap (input_time_ it') = input_time_ it') /\
    last_output_time_ it' = final_output (last_output_time_ it) reqs /\
    count_calls (fun c => match c with InputGetNext => true | _ => false end) log
    = length reqs.
Proof.
  induction reqs as [|[[t1 t2] s] reqs IH]; intros it.
  - exists it, []. cbn. rewrite !Z.add_0_r. repeat split; done.
  - cbn [GetNext_run]. rewrite GetNextInternal_eq.
    destruct (EnsureModelThreadStarted_frame it)
      as (_ & _ & Hn & Hi & Hl & _).
    set (it1 := (EnsureModelThreadStarted it).1.2) in *.
    set (log1 := (EnsureModelThreadStarted it).2).
    assert (Hlog1 : count_calls
              (fun c => match c with InputGetNext => true | _ => false end) log1
              = 0%nat).
    { unfold log1, EnsureModelThreadStarted.
      by destruct (model_thread_ it), (metrics_thread_ it). }
    rewrite RecordInput_release_eq. cbn [mbind outcome_bind].
    rewrite Hl, Hn, Hi. cbn [input_gaps final_output].
    destruct (Z.eqb_spec (last_output_time_ it) 0) as [Hz|Hz].
    + destruct (IH (RecordOutput t2 it1))
        as (it' & log' & -> & Hnum & Htime & Hnil & Hcons & Hlast & Hcount).
      cbn [RecordOutput set_last_output_time_ num_input_events_ input_time_
             last_output_time_] in *.
      rewrite Hn, Hi in *.
      exists it', ((log1 ++ [InputGetNext]) ++ log'). cbn [app].
      split; [reflexivity|]. repeat split; try done.
      * by apply Hnil.
      * by apply Hnil.
      * by apply Hcons.
      * by apply Hcons.
      * rewrite !count_calls_app, Hlog1, Hcount. cbn. lia.
    + match goal with
      | |- context [GetNext_run false reqs ?i] =>
          destruct (IH i)
            as (it' & log' & -> & Hnum & Htime & Hnil & Hcons & Hlast & Hcount)
      end.
      cbn [RecordOutput set_last_output_time_ set_input num_input_events_
             input_time_ last_output_time_] in *.
      exists it', ((log1 ++ [InputGetNext]) ++ log').
      split; [reflexivity|].
      assert (Hnum' : Int64.wrap (num_input_events_ it')
                = Int64.wrap (num_input_events_ it
                    + Z.of_nat (length ([t1 - last_output_time_ it]
                                        ++ input_gaps t2 reqs)))).
      { rewrite Hnum. unfold Int64.add. rewrite Int64_wrap_add_l. f_equal.
        cbn [app length]. lia. }
      assert (Htime' : Int64.wrap (input_time_ it')
                = Int64.wrap (input_time_ it
                    + sum_Z ([t1 - last_output_time_ it]
                             ++ input_gaps t2 reqs))).
      { rewrite Htime. unfold Int64.add, Int64.sub.
        rewrite Int64_wrap_add_l.
        replace (input_time_ it + Int64.wrap (t1 - last_output_time_ it)
                 + sum_Z (input_gaps t2 reqs))
          with (input_time_ it + sum_Z (input_gaps t2 reqs)
                + Int64.wrap (t1 - last_output_time_ it)) by lia.
        rewrite Int64_wrap_add_r. f_equal.
        cbn [app]. unfold sum_Z. cbn [fold_right]. lia. }
      split; [exact Hnum'|]. split; [exact Htime'|].
      split; [done|]. split.
      * intros _. destruct (input_gaps t2 reqs) as [|g gs] eqn:Hg.
        -- destruct Hnil as [-> ->]; [done|].
           unfold Int64.add. by rewrite !Int64_wrap_idem.
        -- apply Hcons. done.
      * split; [done|].
        rewrite !count_calls_app, Hlog1, Hcount. cbn. lia.
Qed.

Lemma GetNext_run_debug_release reqs : forall it r,
  GetNext_run true reqs it = Returns r -> GetNext_run false reqs it = Returns r.
Proof.
  induction reqs as [|[[t1 t2] s] reqs IH]; intros it r; [done|].
  cbn [GetNext_run]. rewrite !GetNextInternal_eq.
  destruct (RecordInput true t1 _) as [it2|] eqn:Hrec; [|done].
  rewrite (RecordInput_debug_release _ _ _ Hrec). cbn.
  destruct (GetNext_run true reqs (RecordOutput t2 it2)) as [r'|] eqn:Hrun;
    [|done].
  by rewrite (IH _ _ Hrun).
Qed.

Lemma GetNext_run_frame debug reqs : forall it it' log,
  GetNext_run debug reqs it = Returns (it', log) ->
  dataset it' = dataset it /\ cancelled_ it' = cancelled_ it /\
  cpu_budget_ it' = cpu_budget_ it /\ ram_budget_ it' = ram_budget_ it.
Proof.
  induction reqs as [|[[t1 t2] s] reqs IH]; intros it it' log; cbn.
  - by intros [= <- _].
  - rewrite GetNextInternal_eq.
    destruct (EnsureModelThreadStarted_frame it)
      as (Hd & Hx & _ & _ & _ & Hc & Hr).
    destruct (RecordInput debug t1 _) as [it2|] eqn:Hrec; cbn; [|done].
    destruct (RecordInput_frame _ _ _ _ Hrec)
      as (Hd2 & _ & _ & Hx2 & Hc2 & Hr2).
    destruct (GetNext_run debug reqs (RecordOutput t2 it2))
      as [[it3 log3]|] eqn:Hrun; cbn; [|done].
    intros [= <- _]. destruct (IH _ _ _ Hrun) as (Hd3 & Hx3 & Hc3 & Hr3).
    cbn in *. repeat split; congruence.
Qed.

Lemma input_gaps_positive reqs : forall t,
  1 <= t -> monotone_from t reqs = true ->
  length (input_gaps t reqs) = length reqs.
Proof.
  induction reqs as [|[[t1 t2] s] reqs IH]; intros t Ht; cbn; [done|].
  intros H. apply andb_prop in H as [H Hrest].
  apply andb_prop in H as [H _]. apply andb_prop in H as [H1 H2].
  apply Z.leb_le in H1, H2.
  destruct (Z.eqb_spec t 0); [lia|]. cbn. f_equal. apply IH; [lia|done].
Qed.

(** With timestamps that never go back the debug build returns, and
    [input_time_] is the exact sum of the gaps, between 0 and the last output
    timestamp. *)
Lemma GetNext_run_monotone reqs : forall it,
  0 <= last_output_time_ it <= Int64.max ->
  0 <= input_time_ it <= last_output_time_ it ->
  monotone_from (last_output_time_ it) reqs = true ->
  exists it' log,
    GetNext_run true reqs it = Returns (it', log) /\
    input_time_ it'
    = input_time_ it + sum_Z (input_gaps (last_output_time_ it) reqs) /\
    0 <= input_time_ it' <= last_output_time_ it' /\
    last_output_time_ it' <= Int64.max.
Proof.
  induction reqs as [|[[t1 t2] s] reqs IH]; intros it Hl Hi Hm.
  - exists it, []. cbn. split; [done|]. split; [lia|]. split; lia.
  - cbn [monotone_from] in Hm.
    apply andb_prop in Hm as [Hm Hrest]. apply andb_prop in Hm as [Hm H3].
    apply andb_prop in Hm as [H1 H2]. apply Z.leb_le in H1, H2, H3.
    cbn [GetNext_run]. rewrite GetNextInternal_eq.
    destruct (EnsureModelThreadStarted_frame it)
      as (_ & _ & Hn & Hit & Hlt & _).
    set (it1 := (EnsureModelThreadStarted it).1.2) in *.
    unfold RecordInput. rewrite Hlt, Hn, Hit. cbn [input_gaps].
    destruct (Z.eqb_spec (last_output_time_ it) 0) as [Hz|Hz]; cbn [negb].
    + cbn [mbind outcome_bind].
      destruct (IH (RecordOutput t2 it1)) as (it' & log' & -> & Ht & Hb & Hmax).
      * cbn. lia.
      * cbn. rewrite Hit. lia.
      * exact Hrest.
      * cbn in Ht. rewrite Hit in Ht.
        do 2 eexists. split; [reflexivity|]. cbn [app]. split; [exact Ht|].
        split; done.
    + destruct (Z.leb_spec (last_output_time_ it) t1) as [_|]; [|lia].
      cbn [negb andb mbind outcome_bind].
      assert (Hadd : Int64.add (input_time_ it)
                       (Int64.sub t1 (last_output_time_ it))
                     = input_time_ it + (t1 - last_output_time_ it)).
      { unfold Int64.add, Int64.sub, Int64.max in *.
        rewrite (Int64_wrap_small (t1 - last_output_time_ it))
          by (unfold Int64.min, Int64.max; lia).
        apply Int64_wrap_small. unfold Int64.min, Int64.max. lia. }
      rewrite Hadd.
      match goal with
      | |- context [GetNext_run true reqs ?i] =>
          destruct (IH i) as (it' & log' & -> & Ht & Hb & Hmax)
      end.
      * cbn. lia.
      * cbn. lia.
      * exact Hrest.
      * cbn in Ht.
        do 2 eexists. split; [reflexivity|]. split; [|split; done].
        rewrite Ht. cbn [app]. unfold sum_Z. cbn [fold_right]. lia.
Qed.

(** ** More on the threads *)

(** While the iterator is not cancelled the optimisation thread does not
    return. *)
Lemma ModelThread_run_alive env : forall th,
  never_cancelled env = true -> mt_pc th <> MT_Returned ->
  exists th' log,
    ModelThread_run env th = Returns (th', log) /\ mt_pc th' <> MT_Returned.
Proof.
  induction env as [|[it now] env IH]; intros th Hnc Hpc; cbn.
  - by do 2 eexists.
  - cbn in Hnc. apply andb_prop in Hnc as [Hc Hnc].
    apply negb_true_iff in Hc.
    assert (Hstep : exists th1 log1,
               ModelThread_step it now th = Returns (th1, log1) /\
               mt_pc th1 <> MT_Returned).
    { unfold ModelThread_step.
      destruct (mt_pc th); [| | | |done].
      - rewrite Hc. cbn [negb andb]. destruct (_ <? _); by do 2 eexists.
      - by do 2 eexists.
      - rewrite SelfInputTime_returns. cbn. by do 2 eexists.
      - by do 2 eexists. }
    destruct Hstep as (th1 & log1 & -> & Hpc1). cbn.
    destruct (IH th1 Hnc Hpc1) as (th2 & log2 & -> & Hpc2). cbn.
    by do 2 eexists.
Qed.

Lemma MetricsThread_run_alive env : forall th rm,
  never_cancelled env = true -> xt_pc th <> XT_Returned ->
  xt_pc (MetricsThread_run env th rm).1.1 <> XT_Returned.
Proof.
  induction env as [|[it now] env IH]; intros th rm Hnc Hpc; cbn; [done|].
  cbn in Hnc. apply andb_prop in Hnc as [Hc Hnc].
  apply negb_true_iff in Hc.
  assert (Hstep : xt_pc (MetricsThread_step it now th rm).1.1 <> XT_Returned).
  { unfold MetricsThread_step.
    destruct (xt_pc th); [| | |done].
    - rewrite Hc. cbn [negb andb]. by destruct (_ <? _).
    - done.
    - by rewrite Hc. }
  destruct (MetricsThread_step it now th rm) as [[th1 rm1] log1].
  specialize (IH th1 rm1 Hnc Hstep).
  by destruct (MetricsThread_run env th1 rm1) as [[th2 rm2] log2].
Qed.

Lemma waits_app log1 log2 : waits (log1 ++ log2) = waits log1 ++ waits log2.
Proof.
  induction log1 as [|c log1 IH]; [done|]. destruct c; cbn; by rewrite ?IH.
Qed.

Lemma MetricsThread_step_waits it r th rm t :
  MetricsThread_times t th -> t <= r < 2 ^ 64 ->
  MetricsThread_times r (MetricsThread_step it r th rm).1.1 /\
  Forall (fun w => 0 < w <= 10) (waits (MetricsThread_step it r th rm).2).
Proof.
  intros (Ht & Hp & Hl & Hc) Hr.
  assert (Hdiv : t / 1000 <= r / 1000) by (apply Z.div_le_mono; lia).
  assert (Hbig : r / 1000 <= 18446744073709551).
  { change 18446744073709551 with ((2 ^ 64 - 1) / 1000).
    apply Z.div_le_mono; lia. }
  unfold MetricsThread_step.
  destruct (xt_pc th).
  - rewrite Hp.
    assert (Hadd : Int64.add (last_recording_time_ms th) 10
                   = last_recording_time_ms th + 10).
    { apply Int64_wrap_small. unfold Int64.min, Int64.max. lia. }
    rewrite Hadd.
    destruct (negb (cancelled_ it)); cbn [andb].
    + destruct (Z.ltb_spec (xt_current_time_ms th)
                  (last_recording_time_ms th + 10)); cbn.
      * split; [repeat split; cbn; lia|].
        constructor; [|constructor].
        unfold Int64.sub. rewrite Int64_wrap_small;
          unfold Int64.min, Int64.max; lia.
      * split; [repeat split; cbn; lia|constructor].
    + cbn. split; [repeat split; cbn; lia|constructor].
  - cbn. rewrite now_ms_uint64 by lia.
    split; [repeat split; cbn; lia|constructor].
  - destruct (cancelled_ it); cbn.
    + split; [repeat split; cbn; lia|constructor].
    + rewrite now_ms_uint64 by lia.
      split; [repeat split; cbn; lia|constructor].
  - cbn. split; [repeat split; cbn; lia|constructor].
Qed.

Lemma MetricsThread_run_waits env : forall th rm t,
  MetricsThread_times t th -> clock_from t env = true ->
  Forall (fun w => 0 < w <= 10) (waits (MetricsThread_run env th rm).2).
Proof.
  induction env as [|[it r] env IH]; intros th rm t Hinv Hclock; cbn;
    [constructor|].
  cbn in Hclock. apply andb_prop in Hclock as [Hr Hclock].
  apply andb_prop in Hr as [Hr1 Hr2].
  apply Z.leb_le in Hr1. apply Z.ltb_lt in Hr2.
  destruct (MetricsThread_step_waits it r th rm t Hinv) as [Hinv1 Hw1]; [lia|].
  destruct (MetricsThread_step it r th rm) as [[th1 rm1] log1].
  specialize (IH th1 rm1 r Hinv1 Hclock).
  destruct (MetricsThread_run env th1 rm1) as [[th2 rm2] log2].
  cbn in *. rewrite waits_app. by apply Forall_app.
Qed.

Lemma ModelThread_step_waits it r th t :
  ModelThread_times t th -> t <= r < 2 ^ 64 ->
  exists th' log,
    ModelThread_step it r th = Returns (th', log) /\
    ModelThread_times r th' /\
    Forall (fun w => 0 < w <= optimization_period_ms th) (waits log).
Proof.
  intros (Ht & Hp & Hl & Hc) Hr.
  assert (Hdiv : t / 1000 <= r / 1000) by (apply Z.div_le_mono; lia).
  assert (Hbig : r / 1000 <= 18446744073709551).
  { change 18446744073709551 with ((2 ^ 64 - 1) / 1000).
    apply Z.div_le_mono; lia. }
  unfold ModelThread_step.
  destruct (mt_pc th).
  - assert (Hadd : Int64.add (last_optimization_ms th)
                     (optimization_period_ms th)
                   = last_optimization_ms th + optimization_period_ms th).
    { apply Int64_wrap_small. unfold Int64.min, Int64.max. lia. }
    rewrite Hadd.
    destruct (cancelled_ it); cbn [negb andb].
    + do 2 eexists. split; [reflexivity|].
      split; [repeat split; cbn; lia|constructor].
    + destruct (Z.ltb_spec (mt_current_time_ms th)
                  (last_optimization_ms th + optimization_period_ms th)).
      * do 2 eexists. split; [reflexivity|].
        split; [repeat split; cbn; lia|].
        cbn. constructor; [|constructor].
        unfold Int64.sub. rewrite Int64_wrap_small;
          unfold Int64.min, Int64.max; lia.
      * do 2 eexists. split; [reflexivity|].
        split; [repeat split; cbn; lia|constructor].
  - do 2 eexists. split; [reflexivity|]. cbn. rewrite now_ms_uint64 by lia.
    split; [repeat split; cbn; lia|constructor].
  - rewrite SelfInputTime_returns. cbn.
    do 2 eexists. split; [reflexivity|].
    split; [repeat split; cbn; lia|constructor].
  - do 2 eexists. split; [reflexivity|]. cbn. rewrite now_ms_uint64 by lia.
    split; [|constructor].
    assert (Hshl : Int64.shl (optimization_period_ms th) 1
                   = 2 * optimization_period_ms th).
    { unfold Int64.shl. rewrite Z.shiftl_mul_pow2 by lia.
      rewrite Int64_wrap_small; unfold Int64.min, Int64.max; lia. }
    rewrite Hshl. unfold kOptimizationPeriodThresholdMs, kSecondsToMillis.
    repeat split; cbn; try lia;
      destruct (optimization_period_ms th =? 60 * 1000); cbn; lia.
  - do 2 eexists. split; [reflexivity|].
    split; [repeat split; cbn; lia|constructor].
Qed.

Lemma ModelThread_run_waits env : forall th t,
  ModelThread_times t th -> clock_from t env = true ->
  exists th' log,
    ModelThread_run env th = Returns (th', log) /\
    Forall (fun w => 0 < w <= 60000) (waits log).
Proof.
  induction env as [|[it r] env IH]; intros th t Hinv Hclock; cbn.
  - do 2 eexists. split; [reflexivity|constructor].
  - cbn in Hclock. apply andb_prop in Hclock as [Hr Hclock].
    apply andb_prop in Hr as [Hr1 Hr2].
    apply Z.leb_le in Hr1. apply Z.ltb_lt in Hr2.
    destruct (ModelThread_step_waits it r th t Hinv)
      as (th1 & log1 & -> & Hinv1 & Hw1); [lia|].
    cbn.
    destruct (IH th1 r Hinv1 Hclock) as (th2 & log2 & -> & Hw2). cbn.
    do 2 eexists. split; [reflexivity|].
    rewrite waits_app. apply Forall_app. split; [|done].
    destruct Hinv as (_ & Hp & _).
    eapply List.Forall_impl; [|exact Hw1]. cbn. intros w Hw. lia.
Qed.

Lemma ModelThread_run_calls a cpu ram env : forall th,
  config_is a cpu ram env ->
  exists th' log,
    ModelThread_run env th = Returns (th', log) /\
    Forall (ModelThread_call a cpu ram) log /\
    count_calls is_FlushMetrics log = count_calls is_Optimize log.
Proof.
  induction env as [|[it now] env IH]; intros th Hcfg; cbn.
  - do 2 eexists. split; [reflexivity|]. split; [constructor|done].
  - inversion Hcfg as [|? ? (Ha & Hc & Hr) Hcfg']; subst. cbn in *.
    assert (Hstep : exists th1 log1,
               ModelThread_step it now th = Returns (th1, log1) /\
               Forall (ModelThread_call (algorithm_ (dataset it))
                         (cpu_budget_ it) (ram_budget_ it)) log1 /\
               count_calls is_FlushMetrics log1
               = count_calls is_Optimize log1).
    { unfold ModelThread_step. destruct (mt_pc th).
      - destruct (negb (cancelled_ it) && _);
          [|destruct (cancelled_ it)];
          do 2 eexists; (split; [reflexivity|]);
          (split; [repeat constructor|done]).
      - do 2 eexists. split; [reflexivity|]. split; [constructor|done].
      - rewrite SelfInputTime_returns. cbn.
        do 2 eexists. split; [reflexivity|]. split; [constructor|done].
      - do 2 eexists. split; [reflexivity|].
        split; [repeat constructor|done].
      - do 2 eexists. split; [reflexivity|]. split; [constructor|done]. }
    destruct Hstep as (th1 & log1 & -> & Hcalls1 & Hcount1). cbn.
    destruct (IH th1 Hcfg') as (th2 & log2 & -> & Hcalls2 & Hcount2). cbn.
    do 2 eexists. split; [reflexivity|]. split.
    + apply Forall_app. by split.
    + rewrite !count_calls_app. lia.
Qed.

(** ** The resource of the metrics thread *)

Lemma test_ResourceMgr_lookup (rm : ResourceMgr) :
  test_ResourceMgr rm !! my_resource = counter_after 1 (rm !! my_resource) /\
  forall k, k <> my_resource -> test_ResourceMgr rm !! k = rm !! k.
Proof.
  unfold test_ResourceMgr. fold my_resource.
  destruct (rm !! my_resource) as [c|] eqn:E; cbn.
  - split; [by rewrite lookup_insert_eq|].
    intros k Hk. by rewrite lookup_insert_ne.
  - split; [by rewrite lookup_insert_eq|].
    intros k Hk. by rewrite lookup_insert_ne.
Qed.

Lemma counter_after_S n counter :
  counter_after 1 (counter_after n counter) = counter_after (S n) counter.
Proof.
  destruct n as [|n], counter as [c|]; cbn; try done; f_equal; lia.
Qed.

Lemma counter_after_1_S n counter :
  counter_after n (counter_after 1 counter) = counter_after (S n) counter.
Proof.
  destruct n as [|n], counter as [c|]; cbn; try done; f_equal; lia.
Qed.

Lemma MetricsThread_run_resource env : forall th (rm : ResourceMgr),
  let r := MetricsThread_run env th rm in
  count_calls is_PrintMetrics r.2 = count_calls is_FlushMetrics r.2 /\
  count_calls is_CollectMetrics r.2 = count_calls is_FlushMetrics r.2 /\
  count_calls is_Optimize r.2 = 0%nat /\
  r.1.2 !! my_resource
  = counter_after (count_calls is_FlushMetrics r.2) (rm !! my_resource) /\
  forall k, k <> my_resource -> r.1.2 !! k = rm !! k.
Proof.
  induction env as [|[it now] env IH]; intros th rm; cbn zeta.
  - cbn. repeat split; done.
  - cbn [MetricsThread_run].
    assert (Hstep :
      let s := MetricsThread_step it now th rm in
      (s.1.2 = rm /\ count_calls is_FlushMetrics s.2 = 0%nat /\
       count_calls is_PrintMetrics s.2 = 0%nat /\
       count_calls is_CollectMetrics s.2 = 0%nat /\
       count_calls is_Optimize s.2 = 0%nat) \/
      (s.1.2 = test_ResourceMgr rm /\
       count_calls is_FlushMetrics s.2 = 1%nat /\
       count_calls is_PrintMetrics s.2 = 1%nat /\
       count_calls is_CollectMetrics s.2 = 1%nat /\
       count_calls is_Optimize s.2 = 0%nat)).
    { unfold MetricsThread_step. destruct (xt_pc th); cbn.
      - destruct (negb (cancelled_ it) && _); cbn; left; done.
      - left; done.
      - destruct (cancelled_ it); cbn; [left|right]; done.
      - left; done. }
    cbn zeta in Hstep.
    destruct (MetricsThread_step it now th rm) as [[th1 rm1] log1].
    specialize (IH th1 rm1). cbn zeta in IH.
    destruct (MetricsThread_run env th1 rm1) as [[th2 rm2] log2].
    cbn [fst snd] in *.
    destruct IH as (Hp & Hc & Ho & Hk & Hother).
    rewrite !count_calls_app.
    destruct Hstep as [(-> & Hf1 & Hp1 & Hc1 & Ho1)|(-> & Hf1 & Hp1 & Hc1 & Ho1)];
      rewrite Hf1, Hp1, Hc1, Ho1, Hp, Hc, Ho.
    + repeat split; done.
    + destruct (test_ResourceMgr_lookup rm) as [Hkey Hframe].
      repeat split; try done.
      * rewrite Hk, Hkey. apply counter_after_1_S.
      * intros k Hne. rewrite Hother by done. by apply Hframe.
Qed.

(** A pass under way when the iterator is cancelled is completed; from any
    point four steps bring the optimisation thread to its return. *)
Lemma ModelThread_cancelled_within_4 it1 it2 it3 it4 n1 n2 n3 n4 th :
  cancelled_ it1 = true -> cancelled_ it2 = true ->
  cancelled_ it3 = true -> cancelled_ it4 = true ->
  exists th' log,
    ModelThread_run [(it1, n1); (it2, n2); (it3, n3); (it4, n4)] th
    = Returns (th', log) /\
    mt_pc th' = MT_Returned /\
    (count_calls is_Optimize log <= 1)%nat /\
    (mt_pc th = MT_Test \/ mt_pc th = MT_Waiting \/ mt_pc th = MT_Returned ->
     log = []).
Proof.
  intros H1 H2 H3 H4. cbn. unfold ModelThread_step.
  destruct (mt_pc th) eqn:E;
    repeat (progress (cbn; rewrite ?SelfInputTime_returns, ?H1, ?H2, ?H3, ?H4, ?E));
    do 2 eexists; (split; [reflexivity|]); cbn;
    (split; [done|]); (split; [lia|]); intros [|[|]]; done.
Qed.

(** ** More on the kernel *)

Lemma CreateDataset_readable ctx cpu ram :
  readable ctx cpu ram -> 0 <= cpu -> 0 <= ram ->
  CreateDataset ctx
  = Value {| algorithm_ := algorithm_of ctx;
             dataset_cpu_budget_ := cpu;
             dataset_ram_budget_ := ram |}.
Proof.
  intros (Halg & Hcpu & Hram) Hc Hr.
  unfold CreateDataset, ModelDatasetOp_new, algorithm_of.
  assert (Ha : (if HasAttr ctx kAlgorithm
                then algorithm ← GetAttr ctx kAlgorithm;
                     Value (AutotuneAlgorithm_of algorithm)
                else Value HILL_CLIMB)
               = Value (if HasAttr ctx kAlgorithm
                        then match GetAttr ctx kAlgorithm with
                             | Value a => AutotuneAlgorithm_of a
                             | Failure _ _ => HILL_CLIMB
                             end
                        else HILL_CLIMB)).
  { destruct (HasAttr ctx kAlgorithm); [|done].
    destruct Halg as [a ->]; done. }
  rewrite Ha. cbn. rewrite Hcpu. cbn. unfold OP_REQUIRES.
  destruct (Z.leb_spec 0 cpu); [|lia]. cbn.
  assert (Hr' : (if HasAttr ctx kRamBudget then GetAttr ctx kRamBudget
                 else Value 0) = Value ram).
  { destruct (HasAttr ctx kRamBudget); [done|by subst]. }
  rewrite Hr'. cbn. destruct (Z.leb_spec 0 ram); [|lia]. reflexivity.
Qed.

Lemma ModelDatasetOp_new_cpu_message ctx cpu :
  (HasAttr ctx kAlgorithm = true -> exists a, GetAttr ctx kAlgorithm = Value a) ->
  GetAttr ctx kCpuBudget = Value cpu -> cpu < 0 ->
  ModelDatasetOp_new ctx
  = Failure INVALID_ARGUMENT
      [Str "CPU budget must be positive but is "; Num cpu; Str "."].
Proof.
  intros Halg Hcpu Hc. unfold ModelDatasetOp_new.
  assert (Ha : exists a,
             (if HasAttr ctx kAlgorithm
              then algorithm ← GetAttr ctx kAlgorithm;
                   Value (AutotuneAlgorithm_of algorithm)
              else Value HILL_CLIMB) = Value a).
  { destruct (HasAttr ctx kAlgorithm); [|by eexists].
    destruct Halg as [a ->]; [done|]. by eexists. }
  destruct Ha as [a ->]. cbn. rewrite Hcpu. cbn. unfold OP_REQUIRES.
  destruct (Z.leb_spec 0 cpu); [lia|]. reflexivity.
Qed.

Lemma ModelDatasetOp_new_ram_message ctx cpu ram :
  readable ctx cpu ram -> 0 <= cpu -> ram < 0 ->
  ModelDatasetOp_new ctx
  = Failure INVALID_ARGUMENT
      [Str "RAM budget must be positive but is "; Num ram; Str "."].
Proof.
  intros (Halg & Hcpu & Hram) Hc Hr. unfold ModelDatasetOp_new.
  assert (Ha : exists a,
             (if HasAttr ctx kAlgorithm
              then algorithm ← GetAttr ctx kAlgorithm;
                   Value (AutotuneAlgorithm_of algorithm)
              else Value HILL_CLIMB) = Value a).
  { destruct (HasAttr ctx kAlgorithm); [|by eexists].
    destruct Halg as [a ->]; [done|]. by eexists. }
  destruct Ha as [a ->]. cbn. rewrite Hcpu. cbn. unfold OP_REQUIRES.
  destruct (Z.leb_spec 0 cpu); [|lia]. cbn.
  assert (Hr' : (if HasAttr ctx kRamBudget then GetAttr ctx kRamBudget
                 else Value 0) = Value ram).
  { destruct (HasAttr ctx kRamBudget); [done|lia]. }
  rewrite Hr'. cbn. destruct (Z.leb_spec 0 ram); [lia|]. reflexivity.
Qed.

Lemma graph_ctx_readable d :
  readable (graph_ctx d) (dataset_cpu_budget_ d) (dataset_ram_budget_ d) /\
  algorithm_of (graph_ctx d) = algorithm_ d.
Proof.
  unfold readable, algorithm_of, graph_ctx, graph_attrs, ctx_of_attrs.
  cbn [HasAttr GetAttr list_to_map foldr fst snd curry uncurry].
  assert (H1 : kCpuBudget <> kAlgorithm) by done.
  assert (H2 : kRamBudget <> kAlgorithm) by done.
  assert (H3 : kRamBudget <> kCpuBudget) by done.
  rewrite !lookup_insert_eq.
  rewrite (lookup_insert_ne _ kAlgorithm kCpuBudget) by done.
  rewrite lookup_insert_eq.
  rewrite (lookup_insert_ne _ kAlgorithm kRamBudget) by done.
  rewrite (lookup_insert_ne _ kCpuBudget kRamBudget) by done.
  rewrite lookup_insert_eq.
  rewrite !bool_decide_eq_true_2 by eauto.
  split; [split; [eauto|split; done]|].
  by destruct (algorithm_ d).
Qed.

Lemma monotone_from_le reqs t t' :
  t' <= t -> monotone_from t reqs = true -> monotone_from t' reqs = true.
Proof.
  destruct reqs as [|[[t1 t2] s] reqs]; [done|]. cbn. intros Hle H.
  apply andb_prop in H as [H Hrest]. apply andb_prop in H as [H H3].
  apply andb_prop in H as [H1 H2]. apply Z.leb_le in H1.
  rewrite H2, H3, Hrest. destruct (Z.leb_spec t' t1); [done|lia].
Qed.

Lemma CreateDataset_nonneg ctx d :
  CreateDataset ctx = Value d ->
  0 <= dataset_cpu_budget_ d /\ 0 <= dataset_ram_budget_ d.
Proof.
  unfold CreateDataset, ModelDatasetOp_new, OP_REQUIRES.
  destruct (if HasAttr ctx kAlgorithm then _ else _) as [a|]; cbn; [|done].
  destruct (GetAttr ctx kCpuBudget) as [cpu|]; cbn; [|done].
  destruct (Z.leb_spec 0 cpu); cbn; [|done].
  destruct (if HasAttr ctx kRamBudget then _ else _) as [ram|]; cbn; [|done].
  destruct (Z.leb_spec 0 ram); cbn; [|done].
  intros [= <-]. cbn. done.
Qed.

Lemma Writer_run_forwards `{AsyncWriterOps Tensor AsyncWriter}
    (ops : list (writer_op (Tensor := Tensor))) :
  forall w : Writer (AsyncWriter := AsyncWriter),
    async_writer_ (Writer_run ops w).2
    = fold_left (fun a tensors => AsyncWriter_Write tensors a) (writes_of ops)
                (async_writer_ w) /\
    target_dir_ (Writer_run ops w).2 = target_dir_ w /\
    length (Writer_run ops w).1 = length (writes_of ops).
Proof.
  induction ops as [|[tensors|s] ops IH]; intros w; cbn.
  - done.
  - specialize (IH {| target_dir_ := target_dir_ w;
                      async_writer_ :=
                        AsyncWriter_Write tensors (async_writer_ w) |}).
    destruct (Writer_run ops _) as [ss w']. cbn in *.
    destruct IH as (-> & -> & ->). done.
  - apply IH.
Qed.

(** ** The budgets, from the configuration to the iterator *)

(** X1: for a configuration that can be read, with a CPU budget [cpu >= 0]
    and a RAM budget [0 <= ram < 2^53], on a platform with less than [2^53]
    bytes of RAM available: the dataset is created, and its iterator has the
    CPU budget [cpu], or the number of schedulable CPUs if [cpu = 0], and the
    RAM budget [ram], or half of the available RAM, rounded down, if
    [ram = 0]. *)
Theorem X1_budgets_from_configuration ctx cpu ram port :
  readable ctx cpu ram ->
  0 <= cpu -> 0 <= ram < 2 ^ 53 -> 0 <= AvailableRam port < 2 ^ 53 ->
  exists d,
    CreateDataset ctx = Value d /\
    cpu_budget_ (Iterator_new port d)
    = (if cpu =? 0 then NumSchedulableCPUs port else cpu) /\
    ram_budget_ (Iterator_new port d)
    = (if ram =? 0 then AvailableRam port / 2 else ram).
Proof.
  intros Hread Hc Hr Ha. eexists.
  split; [apply CreateDataset_readable; [done|lia|lia]|].
  split; [reflexivity|]. by rewrite ram_budget_resolved.
Qed.

(** X1 for the configuration that only sets [cpu_budget = 0]. *)
Lemma X1_budgets_from_configuration_witness :
  let ctx := ctx_of_attrs {[ kCpuBudget := 0 ]} in
  readable ctx 0 0 /\
  0 <= 0 /\ 0 <= 0 < 2 ^ 53 /\ 0 <= AvailableRam sample_port < 2 ^ 53 /\
  exists d,
    CreateDataset ctx = Value d /\
    cpu_budget_ (Iterator_new sample_port d)
    = (if 0 =? 0 then NumSchedulableCPUs sample_port else 0) /\
    ram_budget_ (Iterator_new sample_port d)
    = (if 0 =? 0 then AvailableRam sample_port / 2 else 0).
Proof.
  intros ctx.
  assert (H1 : readable ctx 0 0).
  { split; [vm_compute; discriminate|]. split; vm_compute; reflexivity. }
  assert (H2 : 0 <= 0) by lia.
  assert (H3 : 0 <= 0 < 2 ^ 53) by lia.
  assert (H4 : 0 <= AvailableRam sample_port < 2 ^ 53) by (cbn; lia).
  split; [exact H1|]. split; [exact H2|]. split; [exact H3|].
  split; [exact H4|].
  exact (X1_budgets_from_configuration ctx 0 0 sample_port H1 H2 H3 H4).
Defined.

(** ** Element requests *)

(** X2: over every sequence of element requests that returns, in either
    build and from any iterator, the dataset, [cancelled_] and both budgets
    are what they were. *)
Theorem X2_GetNext_keeps_configuration debug reqs it it' log :
  GetNext_run debug reqs it = Returns (it', log) ->
  dataset it' = dataset it /\ cancelled_ it' = cancelled_ it /\
  cpu_budget_ it' = cpu_budget_ it /\ ram_budget_ it' = ram_budget_ it.
Proof. apply GetNext_run_frame. Qed.

(** X2 for two requests to a new iterator. *)
Lemma X2_GetNext_keeps_configuration_witness :
  exists it' log,
    GetNext_run true [(100, 150, OK); (160, 170, OK)] sample_iterator
    = Returns (it', log) /\
    dataset it' = dataset sample_iterator /\
    cancelled_ it' = cancelled_ sample_iterator /\
    cpu_budget_ it' = cpu_budget_ sample_iterator /\
    ram_budget_ it' = ram_budget_ sample_iterator.
Proof.
  do 2 eexists.
  assert (H : GetNext_run true [(100, 150, OK); (160, 170, OK)] sample_iterator
              = Returns (?[it'], ?[log])) by (vm_compute; reflexivity).
  split; [exact H|].
  exact (X2_GetNext_keeps_configuration true _ sample_iterator _ _ H).
Defined.

(** X3: in a release build every sequence of element requests to a new
    iterator returns, having asked the input once for each request; after it
    [num_input_events_] is the number of gaps and [input_time_] their sum,
    both modulo [2^64], where each request but the first (and but those that
    follow an output timestamp 0) contributes the gap from the previous
    output timestamp to its input timestamp, negative or not; and
    [last_output_time_] is the last output timestamp. *)
Theorem X3_input_time_is_sum_of_gaps reqs port d :
  exists it' log,
    GetNext_run false reqs (Iterator_new port d) = Returns (it', log) /\
    num_input_events_ it'
    = Int64.wrap (Z.of_nat (length (input_gaps 0 reqs))) /\
    input_time_ it' = Int64.wrap (sum_Z (input_gaps 0 reqs)) /\
    last_output_time_ it' = final_output 0 reqs /\
    count_calls (fun c => match c with InputGetNext => true | _ => false end)
                log
    = length reqs.
Proof.
  destruct (GetNext_run_release reqs (Iterator_new port d))
    as (it' & log & Hrun & Hnum & Htime & Hnil & Hcons & Hlast & Hcount).
  cbn [Iterator_new num_input_events_ input_time_ last_output_time_] in *.
  exists it', log. split; [exact Hrun|].
  destruct (input_gaps 0 reqs) as [|g gs] eqn:Hg.
  - destruct Hnil as [-> ->]; [done|]. repeat split; done.
  - destruct Hcons as [Hn Ht]; [done|].
    rewrite <- Hn, <- Ht, Hnum, Htime. repeat split; done.
Qed.

(** X4: when a sequence of element requests returns in a debug build, it
    returns the same iterator and the same log in a release build: the
    assertion changes nothing but whether the run goes on. *)
Theorem X4_debug_run_is_release_run reqs it r :
  GetNext_run true reqs it = Returns r -> GetNext_run false reqs it = Returns r.
Proof. apply GetNext_run_debug_release. Qed.

(** X4 for two requests to a new iterator. *)
Lemma X4_debug_run_is_release_run_witness :
  exists r,
    GetNext_run true [(100, 150, OK); (160, 170, OK)] sample_iterator
    = Returns r /\
    GetNext_run false [(100, 150, OK); (160, 170, OK)] sample_iterator
    = Returns r.
Proof.
  eexists.
  assert (H : GetNext_run true [(100, 150, OK); (160, 170, OK)] sample_iterator
              = Returns ?[r]) by (vm_compute; reflexivity).
  split; [exact H|].
  exact (X4_debug_run_is_release_run _ sample_iterator _ H).
Defined.

(** X5: when the timestamps of the requests to a new iterator never go back,
    start at 1 or later and fit an [int64], the debug build returns; after it
    [input_time_] is exactly the sum of the gaps between each output and the
    next input, it lies between 0 and [last_output_time_], and
    [num_input_events_] is the number of requests less one. *)
Theorem X5_monotone_clock_never_fails reqs port d :
  monotone_from 1 reqs = true ->
  exists it' log,
    GetNext_run true reqs (Iterator_new port d) = Returns (it', log) /\
    input_time_ it' = sum_Z (input_gaps 0 reqs) /\
    0 <= input_time_ it' <= last_output_time_ it' /\
    num_input_events_ it' = Int64.wrap (Z.of_nat (Nat.pred (length reqs))).
Proof.
  intros Hmono.
  destruct (GetNext_run_monotone reqs (Iterator_new port d))
    as (it' & log & Hrun & Htime & Hbound & _).
  { cbn. unfold Int64.max. lia. }
  { cbn. lia. }
  { cbn. by apply monotone_from_le with (t := 1). }
  exists it', log. split; [exact Hrun|]. cbn in Htime.
  split; [exact Htime|]. split; [exact Hbound|].
  destruct (GetNext_run_release reqs (Iterator_new port d))
    as (it2 & log2 & Hrel & Hnum & _ & Hnil & Hcons & _).
  rewrite (GetNext_run_debug_release _ _ _ Hrun) in Hrel.
  injection Hrel as <- <-.
  cbn [Iterator_new num_input_events_ last_output_time_] in *.
  assert (Hlen : length (input_gaps 0 reqs) = Nat.pred (length reqs)).
  { destruct reqs as [|[[t1 t2] s] reqs]; [done|]. cbn in *.
    apply andb_prop in Hmono as [Hm Hrest].
    apply andb_prop in Hm as [Hm _]. apply andb_prop in Hm as [H1 H2].
    apply Z.leb_le in H1, H2.
    apply input_gaps_positive; [lia|done]. }
  rewrite <- Hlen.
  destruct (input_gaps 0 reqs) as [|g gs] eqn:Hg.
  - destruct Hnil as [-> _]; done.
  - destruct Hcons as [Hn _]; [done|]. by rewrite <- Hn, Hnum.
Qed.

(** X5 for three requests. *)
Lemma X5_monotone_clock_never_fails_witness :
  monotone_from 1 [(100, 150, OK); (160, 170, OK); (175, 180, OK)] = true /\
  exists it' log,
    GetNext_run true [(100, 150, OK); (160, 170, OK); (175, 180, OK)]
                (Iterator_new sample_port sample_dataset)
    = Returns (it', log) /\
    input_time_ it'
    = sum_Z (input_gaps 0 [(100, 150, OK); (160, 170, OK); (175, 180, OK)]) /\
    0 <= input_time_ it' <= last_output_time_ it' /\
    num_input_events_ it'
    = Int64.wrap (Z.of_nat (Nat.pred (length
        [(100, 150, OK); (160, 170, OK); (175, 180, OK)]))).
Proof.
  split; [reflexivity|].
  apply (X5_monotone_clock_never_fails
           [(100, 150, OK); (160, 170, OK); (175, 180, OK)]
           sample_port sample_dataset).
  reflexivity.
Defined.

(** X6: in a release build [GetNextInternal] returns, and what it returns
    is the status of the input, an error included; the output timestamp is
    recorded and both threads exist afterwards. A debug build that returns
    returns the same. *)
Theorem X6_GetNextInternal_returns_input_status t1 t2 s it :
  exists it' log,
    GetNextInternal false t1 t2 s it = Returns (s, it', log) /\
    last_output_time_ it' = t2 /\
    is_Some (model_thread_ it') /\ is_Some (metrics_thread_ it') /\
    forall r, GetNextInternal true t1 t2 s it = Returns r -> r = (s, it', log).
Proof.
  rewrite !GetNextInternal_eq.
  destruct (EnsureModelThreadStarted_threads it)
    as (_ & _ & [tm Htm] & [tx Htx] & _).
  set (it1 := (EnsureModelThreadStarted it).1.2) in *.
  destruct (RecordInput_release t1 it1) as [it2 Hrel]. rewrite Hrel. cbn.
  destruct (RecordInput_frame _ _ _ _ Hrel) as (_ & Hm & Hx & _).
  do 2 eexists. split; [reflexivity|]. split; [reflexivity|].
  cbn. rewrite Hm, Hx, Htm, Htx. split; [eauto|]. split; [eauto|].
  intros r. destruct (RecordInput true t1 it1) as [it3|] eqn:Hdbg; [|done].
  rewrite (RecordInput_debug_release _ _ _ Hdbg) in Hrel.
  injection Hrel as ->. cbn. by intros [= <-].
Qed.

(** ** The threads *)

(** X7: once the iterator is cancelled the optimisation thread returns
    within four steps from any point, whatever the clock reads, with at most
    one more call of [Optimize] (a pass that was under way is completed), and
    with no call at all from the test of its loop, from its wait or after its
    return. *)
Theorem X7_cancelled_pass_is_completed it1 it2 it3 it4 n1 n2 n3 n4 th :
  cancelled_ it1 = true -> cancelled_ it2 = true ->
  cancelled_ it3 = true -> cancelled_ it4 = true ->
  exists th' log,
    ModelThread_run [(it1, n1); (it2, n2); (it3, n3); (it4, n4)] th
    = Returns (th', log) /\
    mt_pc th' = MT_Returned /\
    (count_calls is_Optimize log <= 1)%nat /\
    (mt_pc th = MT_Test \/ mt_pc th = MT_Waiting \/ mt_pc th = MT_Returned ->
     log = []).
Proof. apply ModelThread_cancelled_within_4. Qed.

(** X7 for a thread about to read the self input time when the iterator is
    deleted. *)
Lemma X7_cancelled_pass_is_completed_witness :
  let it := (Iterator_delete busy_iterator).1 in
  cancelled_ it = true /\
  exists th' log,
    ModelThread_run [(it, 2000); (it, 3000); (it, 4000); (it, 5000)]
                    thread_before_pass
    = Returns (th', log) /\
    mt_pc th' = MT_Returned /\
    (count_calls is_Optimize log <= 1)%nat /\
    (mt_pc thread_before_pass = MT_Test \/
     mt_pc thread_before_pass = MT_Waiting \/
     mt_pc thread_before_pass = MT_Returned ->
     log = []).
Proof.
  intros it.
  assert (H : cancelled_ it = true) by reflexivity.
  split; [exact H|].
  exact (X7_cancelled_pass_is_completed it it it it 2000 3000 4000 5000
           thread_before_pass H H H H).
Defined.

(** X8: as long as no step finds the iterator cancelled, neither thread
    returns: the optimisation thread goes on (and never stops), and so does
    the metrics thread. *)
Theorem X8_threads_return_only_when_cancelled env now_micros rm :
  never_cancelled env = true ->
  (exists th log,
      ModelThread_run env (ModelThread_start now_micros) = Returns (th, log) /\
      mt_pc th <> MT_Returned) /\
  xt_pc (MetricsThread_run env (MetricsThread_start now_micros) rm).1.1
  <> XT_Returned.
Proof.
  intros Hnc. split.
  - by apply ModelThread_run_alive.
  - by apply MetricsThread_run_alive.
Qed.

(** X8 on the sample clock. *)
Lemma X8_threads_return_only_when_cancelled_witness :
  never_cancelled sample_env = true /\
  (exists th log,
      ModelThread_run sample_env (ModelThread_start 5000000)
      = Returns (th, log) /\
      mt_pc th <> MT_Returned) /\
  xt_pc (MetricsThread_run sample_env (MetricsThread_start 5000000) ∅).1.1
  <> XT_Returned.
Proof.
  split; [reflexivity|].
  apply (X8_threads_return_only_when_cancelled sample_env 5000000 ∅).
  reflexivity.
Defined.

(** X9: when the readings of the clock never go back, every wait of the
    metrics thread lasts more than 0ms and at most 10ms, whatever else
    happens to the iterator. *)
Theorem X9_metrics_waits_at_most_10ms env now_micros rm :
  0 <= now_micros < 2 ^ 64 -> clock_from now_micros env = true ->
  Forall (fun w => 0 < w <= 10)
         (waits (MetricsThread_run env (MetricsThread_start now_micros) rm).2).
Proof.
  intros Hnow Hclock.
  apply MetricsThread_run_waits with (t := now_micros); [|done].
  split; [done|]. split; [reflexivity|]. cbn.
  rewrite now_ms_uint64 by done.
  assert (0 <= now_micros / 1000) by (apply Z.div_pos; lia). lia.
Qed.

(** X9 on the sample clock. *)
Lemma X9_metrics_waits_at_most_10ms_witness :
  0 <= 5000000 < 2 ^ 64 /\ clock_from 5000000 sample_env = true /\
  Forall (fun w => 0 < w <= 10)
         (waits (MetricsThread_run sample_env (MetricsThread_start 5000000) ∅).2).
Proof.
  assert (H1 : 0 <= 5000000 < 2 ^ 64) by lia.
  assert (H2 : clock_from 5000000 sample_env = true) by reflexivity.
  split; [exact H1|]. split; [exact H2|].
  exact (X9_metrics_waits_at_most_10ms sample_env 5000000 ∅ H1 H2).
Defined.

(** X10: when the readings of the clock never go back, the optimisation
    thread returns from every run without stopping, and every wait of it
    lasts more than 0ms and at most 60000ms. *)
Theorem X10_model_waits_at_most_threshold env now_micros :
  0 <= now_micros < 2 ^ 64 -> clock_from now_micros env = true ->
  exists th log,
    ModelThread_run env (ModelThread_start now_micros) = Returns (th, log) /\
    Forall (fun w => 0 < w <= 60000) (waits log).
Proof.
  intros Hnow Hclock.
  apply ModelThread_run_waits with (t := now_micros); [|done].
  split; [done|]. split; [cbn; lia|]. cbn.
  rewrite now_ms_uint64 by done.
  assert (0 <= now_micros / 1000) by (apply Z.div_pos; lia). lia.
Qed.

(** X10 on the sample clock. *)
Lemma X10_model_waits_at_most_threshold_witness :
  0 <= 5000000 < 2 ^ 64 /\ clock_from 5000000 sample_env = true /\
  exists th log,
    ModelThread_run sample_env (ModelThread_start 5000000)
    = Returns (th, log) /\
    Forall (fun w => 0 < w <= 60000) (waits log).
Proof.
  assert (H1 : 0 <= 5000000 < 2 ^ 64) by lia.
  assert (H2 : clock_from 5000000 sample_env = true) by reflexivity.
  split; [exact H1|]. split; [exact H2|].
  exact (X10_model_waits_at_most_threshold sample_env 5000000 H1 H2).
Defined.

(** X11: when the iterator that the optimisation thread finds has the
    algorithm [a] and the budgets [cpu] and [ram] at every step, then from any
    point of the thread every run returns, every call in it is a wait, a
    [FlushMetrics] or [Optimize a cpu ram 0], and there are as many
    [FlushMetrics] as [Optimize]. *)
Theorem X11_calls_of_the_optimisation_thread a cpu ram env th :
  config_is a cpu ram env ->
  exists th' log,
    ModelThread_run env th = Returns (th', log) /\
    Forall (ModelThread_call a cpu ram) log /\
    count_calls is_FlushMetrics log = count_calls is_Optimize log.
Proof. apply ModelThread_run_calls. Qed.

(** X11 on the sample clock. *)
Lemma X11_calls_of_the_optimisation_thread_witness :
  config_is HILL_CLIMB 8 (2 ^ 33) sample_env /\
  exists th' log,
    ModelThread_run sample_env (ModelThread_start 5000000)
    = Returns (th', log) /\
    Forall (ModelThread_call HILL_CLIMB 8 (2 ^ 33)) log /\
    count_calls is_FlushMetrics log = count_calls is_Optimize log.
Proof.
  assert (H : config_is HILL_CLIMB 8 (2 ^ 33) sample_env).
  { unfold config_is, sample_env. cbn [map].
    repeat (constructor; [vm_compute; repeat split; reflexivity|]).
    constructor. }
  split; [exact H|].
  exact (X11_calls_of_the_optimisation_thread HILL_CLIMB 8 (2 ^ 33) sample_env
           (ModelThread_start 5000000) H).
Defined.

(** X12: over every run of the metrics thread, from any point and any
    resources: [PrintMetrics] and [CollectMetrics] are called as often as
    [FlushMetrics], [Optimize] never; the first flush that does not find the
    resource creates it with the counter 0 and each further flush adds 1 to
    the counter; every other resource is left as it is. *)
Theorem X12_metrics_thread_counts_its_flushes
    (env : list (Iterator * Z)) (th : MetricsThread) (rm : ResourceMgr) :
  let r := MetricsThread_run env th rm in
  count_calls is_PrintMetrics r.2 = count_calls is_FlushMetrics r.2 /\
  count_calls is_CollectMetrics r.2 = count_calls is_FlushMetrics r.2 /\
  count_calls is_Optimize r.2 = 0%nat /\
  r.1.2 !! my_resource
  = counter_after (count_calls is_FlushMetrics r.2) (rm !! my_resource) /\
  forall k, k <> my_resource -> r.1.2 !! k = rm !! k.
Proof. apply MetricsThread_run_resource. Qed.

(** ** The kernel and the serialisation *)

(** X13: for a configuration that can be read and has a negative budget,
    the error of the construction names the CPU budget and its value when
    that one is negative, whatever the RAM budget is, and otherwise the RAM
    budget and its value. *)
Theorem X13_budget_error_message ctx cpu ram :
  readable ctx cpu ram -> cpu < 0 \/ ram < 0 ->
  ModelDatasetOp_new ctx
  = Failure INVALID_ARGUMENT
      (if cpu <? 0
       then [Str "CPU budget must be positive but is "; Num cpu; Str "."]
       else [Str "RAM budget must be positive but is "; Num ram; Str "."]).
Proof.
  intros Hread Hneg. destruct (Z.ltb_spec cpu 0).
  - destruct Hread as (Halg & Hcpu & _).
    by apply ModelDatasetOp_new_cpu_message.
  - apply ModelDatasetOp_new_ram_message with (cpu := cpu); [done|lia|lia].
Qed.

(** X13 when both budgets are negative. *)
Lemma X13_budget_error_message_witness :
  let ctx := ctx_of_attrs {[ kCpuBudget := -1; kRamBudget := -5 ]} in
  readable ctx (-1) (-5) /\ (-1 < 0 \/ -5 < 0) /\
  ModelDatasetOp_new ctx
  = Failure INVALID_ARGUMENT
      (if -1 <? 0
       then [Str "CPU budget must be positive but is "; Num (-1); Str "."]
       else [Str "RAM budget must be positive but is "; Num (-5); Str "."]).
Proof.
  intros ctx.
  assert (H1 : readable ctx (-1) (-5)).
  { split; [vm_compute; discriminate|]. split; vm_compute; reflexivity. }
  assert (H2 : -1 < 0 \/ -5 < 0) by (left; lia).
  split; [exact H1|]. split; [exact H2|].
  exact (X13_budget_error_message ctx (-1) (-5) H1 H2).
Defined.

(** X14: take a dataset that was created from a configuration. When its
    serialisation succeeds, the builder was asked for the input, then for the
    dataset without attributes, then for the dataset with its three
    attributes, and the node returned is the last answer; and the
    construction from these three attributes creates the same dataset
    again. *)
Theorem X14_serialised_attributes_recreate_the_dataset {Node : Type}
    ctx d (b : builder_replies Node) output log :
  CreateDataset ctx = Value d ->
  AsGraphDefInternal b d = (Value output, log) ->
  log = [AddInputDataset; AddDataset 1 []; AddDataset 1 (graph_attrs d)] /\
  reply_AddDataset_attrs b = Value output /\
  CreateDataset (ctx_of_attrs (list_to_map (graph_attrs d))) = Value d.
Proof.
  intros Hcreate Hgraph.
  destruct (CreateDataset_nonneg _ _ Hcreate) as [Hc Hr].
  split; [|split].
  - unfold AsGraphDefInternal in Hgraph.
    destruct (reply_AddInputDataset b); [|done].
    destruct (reply_AddDataset b); [|done].
    destruct (reply_AddDataset_attrs b); [|done].
    by injection Hgraph as _ <-.
  - unfold AsGraphDefInternal in Hgraph.
    destruct (reply_AddInputDataset b); [|done].
    destruct (reply_AddDataset b); [|done].
    destruct (reply_AddDataset_attrs b); [|done].
    by injection Hgraph as <- _.
  - destruct (graph_ctx_readable d) as [Hread Halg].
    fold (graph_ctx d).
    rewrite (CreateDataset_readable _ _ _ Hread Hc Hr), Halg.
    by destruct d.
Qed.

(** X14 for the dataset of the configuration [cpu_budget = 4],
    [ram_budget = 1024], with a builder that answers every call. *)
Lemma X14_serialised_attributes_recreate_the_dataset_witness :
  let ctx := ctx_of_attrs {[ kCpuBudget := 4; kRamBudget := 1024 ]} in
  let d := {| algorithm_ := HILL_CLIMB; dataset_cpu_budget_ := 4;
              dataset_ram_budget_ := 1024 |} in
  let b := {| reply_AddInputDataset := Value 1%nat;
              reply_AddDataset := Value 2%nat;
              reply_AddDataset_attrs := Value 3%nat |} in
  let log := [AddInputDataset; AddDataset 1 []; AddDataset 1 (graph_attrs d)] in
  CreateDataset ctx = Value d /\
  AsGraphDefInternal b d = (Value 3%nat, log) /\
  log = [AddInputDataset; AddDataset 1 []; AddDataset 1 (graph_attrs d)] /\
  reply_AddDataset_attrs b = Value 3%nat /\
  CreateDataset (ctx_of_attrs (list_to_map (graph_attrs d))) = Value d.
Proof.
  intros ctx d b log.
  assert (H1 : CreateDataset ctx = Value d) by (vm_compute; reflexivity).
  assert (H2 : AsGraphDefInternal b d = (Value 3%nat, log)) by reflexivity.
  split; [exact H1|]. split; [exact H2|].
  exact (X14_serialised_attributes_recreate_the_dataset ctx d b 3%nat log H1 H2).
Defined.

(** ** The trace metadata *)



(** ** The cache writer *)

(** X15: over every sequence of writes and completions, the asynchronous
    writer is given the tensors of every write, in the order of the writes,
    whatever the completions report; the caller gets one status for each
    write; the directory stays; and the destructor signals the end of the
    data after the last write. *)
Theorem X15_writes_are_forwarded_in_order `{AsyncWriterOps Tensor AsyncWriter}
    (ops : list (writer_op (Tensor := Tensor)))
    (w : Writer (AsyncWriter := AsyncWriter)) :
  async_writer_ (Writer_run ops w).2
  = fold_left (fun a tensors => AsyncWriter_Write tensors a) (writes_of ops)
              (async_writer_ w) /\
  target_dir_ (Writer_run ops w).2 = target_dir_ w /\
  length (Writer_run ops w).1 = length (writes_of ops) /\
  Writer_delete (Writer_run ops w).2
  = AsyncWriter_SignalEOF
      (fold_left (fun a tensors => AsyncWriter_Write tensors a) (writes_of ops)
                 (async_writer_ w)).
Proof.
  destruct (Writer_run_forwards ops w) as (Hw & Hd & Hl).
  split; [exact Hw|]. split; [exact Hd|]. split; [exact Hl|].
  unfold Writer_delete. by rewrite Hw.
Qed.

(** Two writes with a failed completion between them, to a writer that
    keeps what it is given: both elements arrive, then the end. *)
Example Writer_lifecycle :
  Writer_delete
    (Writer_run [DoWrite [1]; CallDone (Error (OTHER_CODE 14) []);
                 DoWrite [2; 3]]
                (Writer_new "dir")).2
  = ([[2; 3]; [1]], true).
Proof. reflexivity. Qed.

(** The metadata of a dataset with automatic CPU budget and 1KiB of RAM. *)
Example traceme_metadata_sample :
  traceme_metadata_ {| algorithm_ := HILL_CLIMB; dataset_cpu_budget_ := 0;
                       dataset_ram_budget_ := 1024 |}
  = [("algorithm"%string, "hill climb"%string);
     ("cpu_budget"%string, "0"%string);
     ("ram_budget"%string, "1024B"%string)].
Proof. vm_compute. reflexivity. Qed.
